(** * dogscats.py: the SageMaker serving hooks of the cats-vs-dogs classifier

    A shallow embedding of [src/dogscats/dogscats.py]: the module constants,
    the architecture-metadata table, [_create_model], and the four hooks
    [model_fn], [input_fn], [predict_fn] and [output_fn].

    Python effects are threaded through a state-and-exception monad [py]
    over a [world] that records what the hooks can observe or change: CUDA
    availability, the cudnn benchmark flag, the file system, and the trace
    of log records, prints and I/O calls.  Library code (torchvision, fastai,
    PIL, torch) is not part of the repository; the parts whose behaviour the
    hooks depend on are section variables, or are modelled after the
    library's documented behaviour where this is said. *)

From Stdlib Require Import ZArith String Ascii List Reals Lra Lia.
From Stdlib.Init Require Import Byte.
From stdpp Require Import base option list strings gmap pretty.

(** ** The Python runtime the hooks run in *)

Module Py.

(** The exceptions the hooks and the library calls can raise. [Exception]
    is the base class that [input_fn] and [output_fn] raise directly. *)
Inductive exn : Type :=
| IndexError
| AttributeError (attr : string)
| TypeError (msg : string)
| ValueError (msg : string)
| ZeroDivisionError
| OSError (msg : string)
| FileNotFoundError (path : string)
| IsADirectoryError (path : string)
| RuntimeError (msg : string)
| Exception (msg : string).

Inductive outcome (A : Type) : Type :=
| Returned (a : A)
| Raised (e : exn).
Arguments Returned {A} a.
Arguments Raised {A} e.

Inductive level : Type := DEBUG | INFO.

(** What a run leaves behind, in order. *)
Inductive event : Type :=
| Logged (lvl : level) (msg : string)
| Printed (msg : string)
| FileOpened (path : string)
| ImageOpened (body : list byte).

Inductive fsnode : Type :=
| File (content : list byte)
| Directory.

(** [listdir d] is the directory [d] in scanning order (empty when [d] is
    not a directory); [expand_dirs] stands for glob's expansion of a
    directory part that itself contains wildcards. *)
Record world : Type := World {
  cuda_is_available : bool;
  cudnn_benchmark : bool;
  listdir : string -> list (string * fsnode);
  expand_dirs : string -> list string;
  trace : list event
}.

Definition py (A : Type) : Type := world -> world * outcome A.

#[global] Instance py_ret : MRet py := fun A a w => (w, Returned a).
#[global] Instance py_bind : MBind py := fun A B f c w =>
  match c w with
  | (w', Returned a) => f a w'
  | (w', Raised e) => (w', Raised e)
  end.

Definition raise {A : Type} (e : exn) : py A := fun w => (w, Raised e).

Definition lift {A : Type} (o : outcome A) : py A := fun w => (w, o).

Definition emit (ev : event) : py unit := fun w =>
  (World (cuda_is_available w) (cudnn_benchmark w) (listdir w)
         (expand_dirs w) (trace w ++ [ev]), Returned tt).

Definition print (msg : string) : py unit := emit (Printed msg).
Definition logger_debug (msg : string) : py unit := emit (Logged DEBUG msg).
Definition logger_info (msg : string) : py unit := emit (Logged INFO msg).

Definition torch_cuda_is_available : py bool := fun w =>
  (w, Returned (cuda_is_available w)).

Definition set_cudnn_benchmark (b : bool) : py unit := fun w =>
  (World (cuda_is_available w) b (listdir w) (expand_dirs w) (trace w),
   Returned tt).

Definition value {A : Type} (r : world * outcome A) : outcome A := snd r.
Definition after {A : Type} (r : world * outcome A) : world := fst r.

Definition fails {A : Type} (o : outcome A) : Prop :=
  match o with Raised _ => True | Returned _ => False end.

(** *** Strings: slicing, [str.rfind], [os.path], [fnmatch] *)

Fixpoint rfind_from (c : ascii) (s : string) (i last : Z) : Z :=
  match s with
  | EmptyString => last
  | String a s' =>
      rfind_from c s' (i + 1)%Z (if Ascii.eqb a c then i else last)
  end.

(** [s.rfind(c)]: the last index of [c], or -1. *)
Definition rfind (c : ascii) (s : string) : Z := rfind_from c s 0%Z (-1)%Z.

(** [s[:i]] and [s[i:]] for [0 <= i]. *)
Definition upto (i : Z) (s : string) : string :=
  substring 0 (Z.to_nat i) s.
Definition from (i : Z) (s : string) : string :=
  substring (Z.to_nat i) (String.length s - Z.to_nat i) s.

Fixpoint all_char (c : ascii) (s : string) : bool :=
  match s with
  | EmptyString => true
  | String a s' => Ascii.eqb a c && all_char c s'
  end.

Fixpoint lstrip_list (c : ascii) (l : list ascii) : list ascii :=
  match l with
  | a :: l' => if Ascii.eqb a c then lstrip_list c l' else l
  | [] => []
  end.

Fixpoint lstrip_list_by (f : ascii -> bool) (l : list ascii) : list ascii :=
  match l with
  | a :: l' => if f a then lstrip_list_by f l' else l
  | [] => []
  end.

Definition rstrip (c : ascii) (s : string) : string :=
  string_of_list_ascii
    (rev (lstrip_list c (rev (list_ascii_of_string s)))).

(** [posixpath.split]. *)
Definition os_path_split (p : string) : string * string :=
  let i := (rfind "/" p + 1)%Z in
  let head := upto i p in
  let tail := from i p in
  if negb (String.eqb head "") && negb (all_char "/" head)
  then (rstrip "/" head, tail)
  else (head, tail).

(** The loop of [genericpath._splitext] that skips leading dots: [true]
    as soon as a character before the last dot is not a dot. *)
Fixpoint has_non_dot (s : string) : bool :=
  match s with
  | EmptyString => false
  | String a s' => if Ascii.eqb a "." then has_non_dot s' else true
  end.

(** [posixpath.splitext]. *)
Definition os_path_splitext (p : string) : string * string :=
  let sepIndex := rfind "/" p in
  let dotIndex := rfind "." p in
  if (sepIndex <? dotIndex)%Z
     && has_non_dot (upto (dotIndex - (sepIndex + 1)) (from (sepIndex + 1) p))
  then (upto dotIndex p, from dotIndex p)
  else (p, "").

(** [posixpath.join] of two components. *)
Definition os_path_join (a b : string) : string :=
  if String.prefix "/" b then b
  else if String.eqb a "" || String.eqb (from (Z.of_nat (String.length a) - 1) a) "/"
       then a +:+ b
       else a +:+ "/" +:+ b.

(** [fnmatch.fnmatchcase] for patterns made of literal characters, [*]
    and [?] (no bracket classes). *)
Fixpoint fnmatch_list (pat name : list ascii) : bool :=
  match pat with
  | [] => match name with [] => true | _ => false end
  | p :: pat' =>
      if Ascii.eqb p "*" then
        (fix star (n : list ascii) : bool :=
           fnmatch_list pat' n
           || match n with [] => false | _ :: n' => star n' end) name
      else
        match name with
        | [] => false
        | c :: name' =>
            (Ascii.eqb p "?" || Ascii.eqb p c) && fnmatch_list pat' name'
        end
  end.

Definition fnmatch (name pat : string) : bool :=
  fnmatch_list (list_ascii_of_string pat) (list_ascii_of_string name).

Fixpoint has_magic (s : string) : bool :=
  match s with
  | EmptyString => false
  | String a s' =>
      Ascii.eqb a "*" || Ascii.eqb a "?" || Ascii.eqb a "[" || has_magic s'
  end.

(** [glob.glob1]: the entries of one directory that match, hidden names
    left out unless the pattern itself starts with a dot. *)
Definition glob1 (w : world) (dirname pattern : string) : list string :=
  List.filter (fun n => fnmatch n pattern
                        && (String.prefix "." pattern
                            || negb (String.prefix "." n)))
              (map fst (listdir w dirname)).

(** [glob.glob] for a pattern whose last component has wildcards: every
    match in every directory the directory part stands for. *)
Definition glob_paths (w : world) (pathname : string) : list string :=
  let (dirname, basename) := os_path_split pathname in
  let dirs := if has_magic dirname then expand_dirs w dirname
              else [dirname] in
  concat (map (fun d => map (os_path_join d) (glob1 w d basename)) dirs).

Definition glob_glob (pathname : string) : py (list string) := fun w =>
  (w, Returned (glob_paths w pathname)).

(** What reading the file at [path] gives. *)
Definition file_bytes (w : world) (path : string) : outcome (list byte) :=
  let (dirname, basename) := os_path_split path in
  match List.find (fun e => String.eqb (fst e) basename)
                  (listdir w dirname) with
  | Some (_, File content) => Returned content
  | Some (_, Directory) => Raised (IsADirectoryError path)
  | None => Raised (FileNotFoundError path)
  end.

Definition read_bytes (path : string) : py (list byte) := fun w =>
  (w, file_bytes w path).

(** [open(path, 'rb')] and reading the file. *)
Definition open_rb (path : string) : py (list byte) :=
  _ ← emit (FileOpened path);
  read_bytes path.

(** [dict.get(key, default)]. *)
Definition dict_get {V : Type} (d : gmap string V) (key : string)
    (default : V) : V :=
  match d !! key with
  | Some v => v
  | None => default
  end.

(** Indexing a tuple or list, negative indices counted from the end. *)
Definition getitem {A : Type} (l : list A) (i : Z) : outcome A :=
  let n := Z.of_nat (length l) in
  let j := if (i <? 0)%Z then (i + n)%Z else i in
  if (j <? 0)%Z then Raised IndexError
  else match l !! Z.to_nat j with
       | Some a => Returned a
       | None => Raised IndexError
       end.

End Py.


Import Py.

#[global] Instance outcome_ret : MRet outcome := fun A a => Returned a.
#[global] Instance outcome_bind : MBind outcome := fun A B f o =>
  match o with
  | Returned a => f a
  | Raised e => Raised e
  end.

#[global] Instance outcome_fmap : FMap outcome := fun A B f o =>
  match o with
  | Returned a => Returned (f a)
  | Raised e => Raised e
  end.

(** ** Module-level constants *)

Definition JSON_CONTENT_TYPE : string := "application/json".
Definition JPEG_CONTENT_TYPE : string := "image/jpeg".

(** [classes = ('cats', 'dogs')] *)
Definition classes : list string := ["cats"; "dogs"].

(** *** [int(os.environ.get('IMAGE_SIZE', '224'))] *)

Definition is_space (c : ascii) : bool :=
  let n := nat_of_ascii c in
  (n =? 32)%nat || ((9 <=? n)%nat && (n <=? 13)%nat).

Definition digit_of (c : ascii) : option Z :=
  let n := nat_of_ascii c in
  if ((48 <=? n)%nat && (n <=? 57)%nat)%bool
  then Some (Z.of_nat n - 48)%Z else None.

(** Decimal digits, single underscores allowed between two digits. *)
Fixpoint parse_digits (l : list ascii) (acc : Z) (after_digit : bool)
  : option Z :=
  match l with
  | [] => if after_digit then Some acc else None
  | c :: l' =>
      match digit_of c with
      | Some d => parse_digits l' (10 * acc + d)%Z true
      | None =>
          if Ascii.eqb c "_" && after_digit
          then parse_digits l' acc false
          else None
      end
  end.

(** [int(s)] for a string in base 10: surrounding whitespace, an optional
    sign, then the digits. *)
Definition py_int (s : string) : outcome Z :=
  let body :=
    rev (lstrip_list_by is_space
           (rev (lstrip_list_by is_space (list_ascii_of_string s)))) in
  let parsed :=
    match body with
    | c :: rest =>
        if Ascii.eqb c "-" then Z.opp <$> parse_digits rest 0%Z false
        else if Ascii.eqb c "+" then parse_digits rest 0%Z false
        else parse_digits body 0%Z false
    | [] => None
    end in
  match parsed with
  | Some n => Returned n
  | None =>
      Raised (ValueError
                ("invalid literal for int() with base 10: '" +:+ s +:+ "'"))
  end.

(** The process environment, [os.environ]. *)
Definition read_IMG_SIZE (environ : gmap string string) : outcome Z :=
  py_int (dict_get environ "IMAGE_SIZE" "224").


(** ** Architecture metadata *)

(** A network as fastai sees it: a layer, or a sequence of sub-modules that
    can be indexed. *)
#[warnings="-register-all"]
Inductive nn_module : Type :=
| Layer (kind : string)
| Sequential (children : list nn_module).

(** [m[i]] *)
Definition subscript (m : nn_module) (i : Z) : outcome nn_module :=
  match m with
  | Sequential children => getitem children i
  | Layer kind => Raised (TypeError ("'" +:+ kind +:+ "' object does not support indexing"))
  end.

(** By default split models between first and second layer. *)
Definition _default_split (m : nn_module) : outcome (list nn_module) :=
  m1 ← subscript m 1;
  mret [m1].

(** Split a resnet style model. *)
Definition _resnet_split (m : nn_module) : outcome (list nn_module) :=
  m0 ← subscript m 0;
  m06 ← subscript m0 6;
  m1 ← subscript m 1;
  mret [m06; m1].

Record meta : Type := Meta {
  cut : Z;
  split : nn_module -> outcome (list nn_module)
}.

Definition _default_meta : meta := Meta (-1) _default_split.
Definition _resnet_meta : meta := Meta (-2) _resnet_split.

(** An architecture is the torchvision constructor, identified by the name
    it has in [torchvision.models]. *)
Definition _model_meta : gmap string meta :=
  {[ "resnet18" := _resnet_meta; "resnet34" := _resnet_meta;
     "resnet50" := _resnet_meta; "resnet101" := _resnet_meta;
     "resnet152" := _resnet_meta ]}.

(** ** Rebuilding and loading the model *)

Section Loader.

(** torchvision and fastai: the constructors there are, what calling one
    with [pretrained=False] builds, and fastai's [create_body],
    [num_features] and [create_head]. *)
Variable tvm : gset string.
Variable arch_call : string -> bool -> outcome nn_module.
Variable create_body : nn_module -> Z -> outcome nn_module.
Variable num_features : nn_module -> Z.
Variable create_head : Z -> Z -> nn_module.

(** torch serialization: [torch.load] of a file's bytes, and the strict
    key-and-shape check of [load_state_dict]. *)
Variable state_dict : Type.
Variable torch_load : list byte -> outcome state_dict.
Variable fits : nn_module -> state_dict -> bool.

(** A [torch.nn.Module] object with its mutable state. *)
Record model : Type := Model {
  network : nn_module;
  parameters : option state_dict;
  device : string;
  training : bool
}.

(** [nn.Sequential(body, head)]: freshly initialised, on the CPU, in
    training mode. *)
Definition nn_Sequential (body head : nn_module) : model :=
  Model (Sequential [body; head]) None "cpu" true.

Definition load_state_dict (m : model) (sd : state_dict) : py model :=
  if fits (network m) sd
  then mret (Model (network m) (Some sd) (device m) (training m))
  else raise (RuntimeError "Error(s) in loading state_dict").

Definition model_to (m : model) (dev : string) : model :=
  Model (network m) (parameters m) dev (training m).

Definition model_eval (m : model) : model :=
  Model (network m) (parameters m) (device m) false.

(** [getattr(tvm, name)] *)
Definition getattr_tvm (name : string) : py string :=
  if decide (name ∈ tvm) then mret name
  else raise (AttributeError name).

Definition _create_model (arch : string) (device : string) : py model :=
  _ ← print "Creating new model";
  let meta := dict_get _model_meta arch _default_meta in
  _ ← (if String.eqb device "cuda" then set_cudnn_benchmark true
       else mret tt);
  net ← lift (arch_call arch false);
  body ← lift (create_body net (cut meta));
  let nf := (num_features body * 2)%Z in
  let head := create_head nf (Z.of_nat (length classes)) in
  let model := nn_Sequential body head in
  _ ← print "Model created";
  mret model.

(** The network [_create_model] assembles once the cut point is known. *)
Definition assemble (arch : string) (cut : Z) : outcome model :=
  net ← arch_call arch false;
  body ← create_body net cut;
  mret (nn_Sequential body
          (create_head (num_features body * 2)%Z 2%Z)).

Definition model_fn (model_dir : string) : py model :=
  _ ← logger_debug "model_fn";
  cuda ← torch_cuda_is_available;
  let device := if cuda : bool then "cuda" else "cpu" in
  _ ← print ("Device Type: " +:+ device);
  found ← glob_glob (model_dir +:+ "/resnet*.pth");
  first ← lift (getitem found 0);
  let arch_name := fst (os_path_splitext (snd (os_path_split first))) in
  _ ← print ("Model architecture is: " +:+ arch_name);
  arch ← getattr_tvm arch_name;
  model ← _create_model arch device;
  _ ← print "Loading model weights";
  f ← open_rb (os_path_join model_dir (arch_name +:+ ".pth"));
  sd ← lift (torch_load f);
  model ← load_state_dict model sd;
  _ ← print "Model weights loaded";
  let model := model_to model device in
  let model := model_eval model in
  mret model.

End Loader.


(** ** Numbers and tensors *)

(** The arithmetic the pipeline asks of torch's floating-point numbers. *)
Class Float (F : Type) : Type := {
  of_Z : Z -> F;
  fadd : F -> F -> F;
  fsub : F -> F -> F;
  fdiv : F -> F -> F;
  fexp : F -> F;
  fgtb : F -> F -> bool
}.

(** A decimal literal such as [0.485], written [decimal 485 1000]. *)
Definition decimal {F : Type} `{Float F} (n scale : Z) : F :=
  fdiv (of_Z n) (of_Z scale).

(** A dense tensor: its shape, where it lives, and the element at an index
    (one coordinate per dimension). *)
Record tensor (F : Type) : Type := Tensor {
  shape : list Z;
  placed_on : string;
  at_index : list Z -> F
}.
Arguments Tensor {F} shape placed_on at_index.
Arguments shape {F} t.
Arguments placed_on {F} t.
Arguments at_index {F} t idx.

(** [t.unsqueeze_(0)] *)
Definition unsqueeze_0 {F : Type} (t : tensor F) : tensor F :=
  Tensor (1%Z :: shape t) (placed_on t) (fun idx => at_index t (tail idx)).

(** [t.to(device)] *)
Definition tensor_to {F : Type} (t : tensor F) (dev : string) : tensor F :=
  Tensor (shape t) dev (at_index t).

(** An RGB image as PIL holds it: [pixel x y c] is channel [c] (0, 1, 2) of
    the pixel in column [x], row [y], a value in 0..255. *)
Record image : Type := Image {
  width : Z;
  height : Z;
  pixel : Z -> Z -> Z -> Z
}.

(** ** torchvision transforms *)

Section Transforms.

Context {F : Type} `{Float F}.

(** PIL's bilinear resampling: the pixels of the image resized to the given
    width and height. *)
Variable bilinear : image -> Z -> Z -> (Z -> Z -> Z -> Z).

Definition image_resize (img : image) (ow oh : Z) : image :=
  Image ow oh (bilinear img ow oh).

(** [int(a / b)] for the true division of two integers. *)
Definition int_div (a b : Z) : outcome Z :=
  if (b =? 0)%Z then Raised ZeroDivisionError else Returned (Z.quot a b).

(** [transforms.Resize(size)] with an integer size: the shorter side
    becomes [size], the other one keeps the aspect ratio. *)
Definition Resize (size : Z) (img : image) : outcome image :=
  let w := width img in
  let h := height img in
  if ((w <=? h)%Z && (w =? size)%Z) || ((h <=? w)%Z && (h =? size)%Z)
  then Returned img
  else if (w <? h)%Z then
    let ow := size in
    oh ← int_div (size * h) w;
    mret (image_resize img ow oh)
  else
    let oh := size in
    ow ← int_div (size * w) h;
    mret (image_resize img ow oh).

(** [int(round(d / 2.))]: Python rounds halves to the even neighbour. *)
Definition round_half (d : Z) : Z :=
  let q := (d / 2)%Z in
  if Z.even d then q else if Z.even q then q else (q + 1)%Z.

(** [img.crop((left, upper, right, lower))]: the box may reach outside the
    image, where the result is black. *)
Definition image_crop (img : image) (left upper right lower : Z)
  : outcome image :=
  if (right <? left)%Z
  then Raised (ValueError "Coordinate 'right' is less than 'left'")
  else if (lower <? upper)%Z
  then Raised (ValueError "Coordinate 'lower' is less than 'upper'")
  else Returned
    (Image (right - left) (lower - upper)
       (fun x y c =>
          let sx := (x + left)%Z in
          let sy := (y + upper)%Z in
          if (0 <=? sx)%Z && (sx <? width img)%Z
             && (0 <=? sy)%Z && (sy <? height img)%Z
          then pixel img sx sy c else 0%Z)).

(** [transforms.CenterCrop(size)] with an integer size. *)
Definition CenterCrop (size : Z) (img : image) : outcome image :=
  let w := width img in
  let h := height img in
  let th := size in
  let tw := size in
  let i := round_half (h - th) in
  let j := round_half (w - tw) in
  image_crop img j i (j + tw) (i + th).

(** [transforms.ToTensor()]: channels first, values scaled to [0,1]. *)
Definition ToTensor (img : image) : tensor F :=
  Tensor [3%Z; height img; width img] "cpu"
    (fun idx =>
       match idx with
       | [c; y; x] => fdiv (of_Z (pixel img x y c)) (of_Z 255)
       | _ => of_Z 0
       end).

(** [transforms.Normalize(mean, std)]: per channel, [(t - mean) / std]. *)
Definition Normalize (mean std : list F) (t : tensor F) : tensor F :=
  Tensor (shape t) (placed_on t)
    (fun idx =>
       let c := Z.to_nat (hd 0%Z idx) in
       fdiv (fsub (at_index t idx) (nth c mean (of_Z 0)))
            (nth c std (of_Z 1))).

End Transforms.

(** ** Decoding a request *)

Section Decode.

Context {F : Type} `{Float F}.

(** [IMG_SIZE], fixed when the module is imported. *)
Variable IMG_SIZE : Z.

Variable bilinear : image -> Z -> Z -> (Z -> Z -> Z -> Z).

(** [PIL.Image.open(...).convert('RGB')]: [None] when the bytes are not an
    image PIL can identify. *)
Variable pil_decode : list byte -> option image.

(** The image preprocess steps for inference, composed in this order. *)
Definition _preprocess (img : image) : outcome (tensor F) :=
  resized ← Resize bilinear 256 img;
  cropped ← CenterCrop IMG_SIZE resized;
  let t := ToTensor cropped in
  mret (Normalize [decimal 485 1000; decimal 456 1000; decimal 406 1000]
                  [decimal 229 1000; decimal 224 1000; decimal 225 1000] t).

Definition image_open (body : list byte) : py image :=
  _ ← emit (ImageOpened body);
  match pil_decode body with
  | Some img => mret img
  | None => raise (OSError "cannot identify image file")
  end.

(** Deserialize the Invoke request body into an object we can perform
    prediction on. *)
Definition input_fn (request_body : list byte) (content_type : string)
  : py (tensor F) :=
  _ ← logger_info "Deserializing the input data.";
  if String.eqb content_type JPEG_CONTENT_TYPE then
    cuda ← torch_cuda_is_available;
    let device := if cuda : bool then "cuda" else "cpu" in
    _ ← print ("Device Type: " +:+ device);
    _ ← logger_info "Processing jpeg image.";
    img_pil ← image_open request_body;
    img_tensor ← lift (_preprocess img_pil);
    let img_tensor := unsqueeze_0 img_tensor in
    let img_variable := tensor_to img_tensor device in
    _ ← logger_info "Returning image as PyTorch Variable.";
    mret img_variable
  else
    raise (Exception ("Requested unsupported ContentType in content_type: "
                      +:+ content_type)).

End Decode.


(** ** Python dictionaries and their JSON form *)

Inductive pyvalue (F : Type) : Type :=
| PyStr (s : string)
| PyFloat (x : F).
Arguments PyStr {F} s.
Arguments PyFloat {F} x.

(** A [dict] keeps its keys in insertion order; assigning to a key that is
    already there keeps its place. *)
Fixpoint dict_setitem {V : Type} (d : list (string * V)) (k : string) (v : V)
  : list (string * V) :=
  match d with
  | [] => [(k, v)]
  | (k', v') :: d' =>
      if String.eqb k' k then (k, v) :: d'
      else (k', v') :: dict_setitem d' k v
  end.

Definition dquote : string := String "034" EmptyString.

Fixpoint join (sep : string) (parts : list string) : string :=
  match parts with
  | [] => ""
  | [s] => s
  | s :: rest => s +:+ sep +:+ join sep rest
  end.

Module Json.

Definition hex_digit (n : nat) : ascii :=
  if (n <? 10)%nat then ascii_of_nat (48 + n) else ascii_of_nat (87 + n).

(** ['\\u{0:04x}'.format(n)] for a code point below 256. *)
Definition u_escape (n : nat) : string :=
  "\u00" +:+ String (hex_digit (n / 16)) (String (hex_digit (n mod 16)) "").

(** One character under [json.encoder.py_encode_basestring_ascii]. *)
Definition escape_char (c : ascii) : string :=
  let n := nat_of_ascii c in
  if (n =? 34)%nat then "\" +:+ dquote
  else if (n =? 92)%nat then "\\"
  else if (n =? 10)%nat then "\n"
  else if (n =? 13)%nat then "\r"
  else if (n =? 9)%nat then "\t"
  else if (n =? 8)%nat then "\b"
  else if (n =? 12)%nat then "\f"
  else if ((32 <=? n)%nat && (n <=? 126)%nat)%bool then String c ""
  else u_escape n.

Fixpoint escape (s : string) : string :=
  match s with
  | EmptyString => ""
  | String c s' => escape_char c +:+ escape s'
  end.

Definition encode_str (s : string) : string :=
  dquote +:+ escape s +:+ dquote.

Section Dumps.

Context {F : Type}.

(** [float.__repr__] *)
Variable repr_float : F -> string.

Definition encode_value (v : pyvalue F) : string :=
  match v with
  | PyStr s => encode_str s
  | PyFloat x => repr_float x
  end.

(** [json.dumps(d)] with the default separators. *)
Definition dumps (d : list (string * pyvalue F)) : string :=
  "{" +:+ join ", " (map (fun kv => encode_str (fst kv) +:+ ": "
                                    +:+ encode_value (snd kv)) d)
      +:+ "}".

End Dumps.

End Json.

(** ** Predicting and encoding the response *)

Section Predict.

Context {F : Type} `{Float F}.

(** The loaded network, and what calling it on a batch returns: one row of
    raw scores per batch element. *)
Variable model : Type.
Variable forward : model -> tensor F -> outcome (list (list F)).

(** How Python shows a float and torch a 2-D tensor. *)
Variable repr_float : F -> string.
Variable repr_tensor : list (list F) -> string.

(** Softmax of one row: [exp(x_i) / sum_j exp(x_j)]. *)
Definition softmax_row (row : list F) : list F :=
  let exps := map fexp row in
  let total := foldr fadd (of_Z 0) exps in
  map (fun e => fdiv e total) exps.

(** [F.softmax(t, dim=1)] of a 2-D tensor. *)
Definition F_softmax_dim1 (t : list (list F)) : list (list F) :=
  map softmax_row t.

(** The running maximum over the rest of a row: a later element replaces
    the best one only when it is strictly greater. *)
Fixpoint max_scan (rest : list F) (best : F) (best_i next_i : Z) : F * Z :=
  match rest with
  | [] => (best, best_i)
  | y :: rest' =>
      if fgtb y best then max_scan rest' y next_i (next_i + 1)%Z
      else max_scan rest' best best_i (next_i + 1)%Z
  end.

Definition row_max (row : list F) : outcome (F * Z) :=
  match row with
  | [] => Raised (RuntimeError "cannot perform reduction function max on tensor with no elements")
  | x :: rest => Returned (max_scan rest x 0%Z 1%Z)
  end.

Fixpoint rows_max (t : list (list F)) : outcome (list (F * Z)) :=
  match t with
  | [] => Returned []
  | row :: t' =>
      m ← row_max row;
      ms ← rows_max t';
      mret (m :: ms)
  end.

(** [torch.max(t, 1)]: the maximum of every row and its index. *)
Definition torch_max_dim1 (t : list (list F)) : outcome (list F * list Z) :=
  ms ← rows_max t;
  mret (map fst ms, map snd ms).

(** [t.item()] of a 1-D tensor. *)
Definition item {A : Type} (t : list A) : outcome A :=
  match t with
  | [a] => Returned a
  | _ => Raised (ValueError "only one element tensors can be converted to Python scalars")
  end.

Definition repr_value (v : pyvalue F) : string :=
  match v with
  | PyStr s => "'" +:+ s +:+ "'"
  | PyFloat x => repr_float x
  end.

(** [str(d)] for a dict whose strings need no escaping. *)
Definition str_dict (d : list (string * pyvalue F)) : string :=
  "{" +:+ join ", " (map (fun kv => "'" +:+ fst kv +:+ "': "
                                    +:+ repr_value (snd kv)) d)
      +:+ "}".

(** Perform prediction on the deserialized object, with the loaded model. *)
Definition predict_fn (input_object : tensor F) (m : model)
  : py (list (string * pyvalue F)) :=
  _ ← logger_info "Calling model";
  output ← lift (forward m input_object);
  _ ← print "Raw output";
  _ ← print (repr_tensor output);
  let preds := F_softmax_dim1 output in
  _ ← print "Softmax output";
  _ ← print (repr_tensor preds);
  _ ← logger_info "Getting class and confidence score";
  maxes ← lift (torch_max_dim1 preds);
  let conf_score := fst maxes in
  let indx := snd maxes in
  conf ← lift (item conf_score);
  i ← lift (item indx);
  _ ← print ("conf score " +:+ repr_float conf +:+ ", index: " +:+ pretty i);
  let response := [] in
  name ← lift (getitem classes i);
  let response := dict_setitem response "class" (PyStr name) in
  let response := dict_setitem response "confidence" (PyFloat conf) in
  _ ← logger_info (str_dict response);
  mret response.

(** Serialize the prediction result into the desired response content
    type. *)
Definition output_fn (prediction : list (string * pyvalue F))
    (accept : string) : py (string * string) :=
  _ ← logger_info "Serializing the generated output.";
  if String.eqb accept JSON_CONTENT_TYPE then
    mret (Json.dumps repr_float prediction, accept)
  else
    raise (Exception ("Requested unsupported ContentType in Accept: "
                      +:+ accept)).

End Predict.

(** ** Scores as real numbers

    torch computes in 32-bit floating point.  Rounding, infinities and NaN
    are outside this development: the numeric statements below take the
    scores to be real numbers and the arithmetic to be exact. *)

#[global] Instance R_Float : Float R := {|
  of_Z := IZR;
  fadd := Rplus;
  fsub := Rminus;
  fdiv := Rdiv;
  fexp := exp;
  fgtb := fun x y => if Rgt_dec x y then true else false
|}.



(** ** A concrete deployment, for running the hooks *)

Module Demo.

(** A model directory holding two weight files that match the pattern. *)
Definition model_dir : string := "/opt/ml/model".

Definition listing (d : string) : list (string * fsnode) :=
  if String.eqb d model_dir
  then [("code", Directory);
        ("resnet34.pth", File [x72; x33; x34]);
        ("resnet18.pth", File [x72; x31; x38])]
  else [].

Definition start : world := World false false listing (fun _ => []) [].

(** An empty model directory. *)
Definition empty_start : world :=
  World false false (fun _ => []) (fun _ => []) [].

Definition tvm : gset string := {[ "resnet18"; "resnet34"; "vgg16" ]}.

(** Stand-ins for the library: a constructor builds a ten-layer network,
    [create_body] drops the last [-cut] layers, the weights file is kept
    as it is. *)
Definition arch_call (arch : string) (pretrained : bool)
  : outcome nn_module :=
  Returned (Sequential (map (fun i : nat => Layer (arch +:+ "." +:+ pretty i))
                            (seq 0 10))).

Definition create_body (net : nn_module) (cut : Z) : outcome nn_module :=
  match net with
  | Sequential children =>
      Returned (Sequential
                  (take (length children - Z.to_nat (- cut)) children))
  | Layer _ => Raised (TypeError "not a sequence of layers")
  end.

Definition num_features (body : nn_module) : Z := 512.

Definition create_head (nf nc : Z) : nn_module :=
  Layer ("head " +:+ pretty nf +:+ "x" +:+ pretty nc).

Definition torch_load (content : list byte) : outcome (list byte) :=
  Returned content.

Definition fits (net : nn_module) (sd : list byte) : bool := true.

Definition load (dir : string) : py (model (list byte)) :=
  model_fn tvm arch_call create_body num_features create_head
           (list byte) torch_load fits dir.

(** A decoder that takes any body for a 500x375 picture, and a resampler
    that reads the nearest source pixel. *)
Definition picture : image :=
  Image 500 375 (fun x y c => ((x + 2 * y + 3 * c) mod 256)%Z).

Definition pil_decode (body : list byte) : option image := Some picture.

Definition nearest (img : image) (ow oh : Z) : Z -> Z -> Z -> Z :=
  fun x y c => pixel img (x * width img / ow)%Z (y * height img / oh)%Z c.

(** A request, the tensor a decoded request becomes, and a network that
    scores every input 0 for cats and 1 for dogs. *)
Definition jpeg_body : list byte := [xff; xd8; xff; xe0].

Definition blank_input : tensor R :=
  Tensor [1; 3; 224; 224]%Z "cpu" (fun _ => 0%R).

Definition scorer (m : unit) (input : tensor R) : outcome (list (list R)) :=
  Returned [[0%R; 1%R]].

Definition repr_float (x : R) : string := "<float>".

Definition repr_tensor (t : list (list R)) : string := "tensor(...)".

End Demo.

(** ** Training and saving the model *)

Module Training.

(** [open(path, 'wb')] and writing [content]: an entry of that name is
    replaced where it stands, a new one comes last.  The directory part of
    the path is taken to exist. *)
Definition write_bytes (path : string) (content : list byte) : py unit :=
  fun w =>
    let (dirname, basename) := os_path_split path in
    match List.find (fun e => String.eqb (fst e) basename)
                    (listdir w dirname) with
    | Some (_, Directory) => (w, Raised (IsADirectoryError path))
    | _ =>
        (World (cuda_is_available w) (cudnn_benchmark w)
               (fun d => if String.eqb d dirname
                         then dict_setitem (listdir w d) basename
                                (File content)
                         else listdir w d)
               (expand_dirs w) (trace w),
         Returned tt)
    end.

Definition open_wb (path : string) (content : list byte) : py unit :=
  _ ← emit (FileOpened path);
  write_bytes path content.

(** The namespace [parser.parse_args()] returns. *)
Record args (F literal : Type) : Type := Args {
  workers : Z;
  epochs : Z;
  batch_size : Z;
  lr : F;
  momentum : F;
  dist_backend : string;
  image_size : Z;
  model_arch : string;
  hosts : literal;
  current_host : string;
  model_dir : string;
  data_dir : string;
  num_gpus : Z
}.
Arguments Args {F literal}.
Arguments workers {F literal} a.
Arguments epochs {F literal} a.
Arguments batch_size {F literal} a.
Arguments lr {F literal} a.
Arguments momentum {F literal} a.
Arguments dist_backend {F literal} a.
Arguments image_size {F literal} a.
Arguments model_arch {F literal} a.
Arguments hosts {F literal} a.
Arguments current_host {F literal} a.
Arguments model_dir {F literal} a.
Arguments data_dir {F literal} a.
Arguments num_gpus {F literal} a.

(** The defaults the parser is built with: the literals of the script and
    what the five SageMaker variables held. *)
Record parser_defaults (F literal : Type) : Type := Defaults {
  default_workers : Z;
  default_epochs : Z;
  default_batch_size : Z;
  default_lr : F;
  default_momentum : F;
  default_dist_backend : string;
  default_image_size : Z;
  default_model_arch : string;
  default_hosts : literal;
  default_current_host : string;
  default_model_dir : string;
  default_data_dir : string;
  default_num_gpus : string
}.
Arguments Defaults {F literal}.

(** How the script can end before training starts. *)
Inductive startup_error : Type :=
| KeyError (key : string)
| LiteralError (text : string)
| UsageError (message : string).

Inductive startup (A : Type) : Type :=
| Started (a : A)
| Aborted (e : startup_error).
Arguments Started {A} a.
Arguments Aborted {A} e.

#[global] Instance startup_ret : MRet startup := fun A a => Started a.
#[global] Instance startup_bind : MBind startup := fun A B f s =>
  match s with
  | Started a => f a
  | Aborted e => Aborted e
  end.

(** [os.environ[key]] *)
Definition environ_getitem (environ : gmap string string) (key : string)
  : startup string :=
  match environ !! key with
  | Some v => Started v
  | None => Aborted (KeyError key)
  end.

Section Train.

Context {F : Type} `{Float F}.

(** torchvision and fastai: the constructors there are, the data bunch read
    from a folder, the learner built on it, one-cycle fitting (cycle length,
    the bounds of the learning-rate slice and the start fraction when they
    are given), and the [torch.nn.Module] a learner holds. *)
Variable tvm : gset string.
Variable databunch : Type.
Variable image_data_from_folder : string -> Z -> Z -> outcome databunch.
Variable learner : Type.
Variable ConvLearner : databunch -> string -> outcome learner.
Variable fit_one_cycle :
  learner -> Z -> option (F * F) -> option F -> outcome learner.
Variable nn_Module : Type.
Variable learn_model : learner -> nn_Module.

(** torch serialization: a network's [state_dict()] and the bytes
    [torch.save] writes for it. *)
Variable state_dict : Type.
Variable model_state_dict : nn_Module -> state_dict.
Variable torch_save : state_dict -> list byte.

(** Save the model. *)
Definition _save_model (name : string) (model : nn_Module)
    (model_dir : string)
  : py unit :=
  _ ← print "Saving the model.";
  let path := os_path_join model_dir (name +:+ ".pth") in
  _ ← open_wb path (torch_save (model_state_dict model));
  print "Saved model".

(** The train method. *)
Definition _train {literal : Type} (a : args F literal) : py unit :=
  _ ← print ("Called _train method with model arch: " +:+ model_arch a
             +:+ ", batch size: " +:+ pretty (batch_size a)
             +:+ ", image size: " +:+ pretty (image_size a)
             +:+ ", epochs: " +:+ pretty (epochs a));
  cuda ← torch_cuda_is_available;
  let device := if cuda : bool then "cuda" else "cpu" in
  _ ← print ("Device Type: " +:+ device);
  _ ← print ("Getting training data from dir: " +:+ data_dir a);
  data ← lift (image_data_from_folder (data_dir a) (image_size a)
                 (batch_size a));
  _ ← print ("Model architecture is " +:+ model_arch a);
  arch ← getattr_tvm tvm (model_arch a);
  _ ← print "Creating pretrained conv net";
  learn ← lift (ConvLearner data arch);
  _ ← print "Fit one cycle";
  learn ← lift (fit_one_cycle learn 1 None None);
  _ ← print ("Unfreeze and run " +:+ pretty (epochs a) +:+ " more cycles");
  learn ← lift (fit_one_cycle learn (epochs a)
                  (Some (decimal 1 100000, decimal 3 10000))
                  (Some (decimal 5 100)));
  _save_model (model_arch a) (learn_model learn) (model_dir a).

(** What [_train] prints before it saves. *)
Definition train_prints {literal : Type} (a : args F literal) (cuda : bool)
  : list event :=
  [Printed ("Called _train method with model arch: " +:+ model_arch a
            +:+ ", batch size: " +:+ pretty (batch_size a)
            +:+ ", image size: " +:+ pretty (image_size a)
            +:+ ", epochs: " +:+ pretty (epochs a));
   Printed ("Device Type: " +:+ (if cuda then "cuda" else "cpu"));
   Printed ("Getting training data from dir: " +:+ data_dir a);
   Printed ("Model architecture is " +:+ model_arch a);
   Printed "Creating pretrained conv net";
   Printed "Fit one cycle";
   Printed ("Unfreeze and run " +:+ pretty (epochs a) +:+ " more cycles")].

(** [ast.literal_eval] and [parser.parse_args()] on the command line. *)
Variable literal : Type.
Variable literal_eval : string -> option literal.
Variable parse_args :
  parser_defaults F literal -> list string -> startup (args F literal).

(** The script run as a program: the parser is built, every default
    evaluated as its [add_argument] line is reached, then the command line
    is parsed and the model trained. *)
Definition main (environ : gmap string string) (argv : list string)
  : startup (py unit) :=
  sm_hosts ← environ_getitem environ "SM_HOSTS";
  hosts ← match literal_eval sm_hosts with
          | Some v => Started v
          | None => Aborted (LiteralError sm_hosts)
          end;
  current_host ← environ_getitem environ "SM_CURRENT_HOST";
  model_dir ← environ_getitem environ "SM_MODEL_DIR";
  data_dir ← environ_getitem environ "SM_CHANNEL_TRAINING";
  num_gpus ← environ_getitem environ "SM_NUM_GPUS";
  a ← parse_args
        (Defaults 2 2 64 (decimal 1 1000) (decimal 9 10) "gloo" 224
                  "resnet34" hosts current_host model_dir data_dir num_gpus)
        argv;
  mret (_train a).

End Train.

End Training.

(** ** A second deployment: training, then serving *)

Module Lab.

(** Stand-ins for fastai and torch in a training run: a learner counts the
    cycles it was fitted for, its network is that count, the weights of a
    network are that many bytes, and a weights file holds them as they
    are. *)
Definition image_data_from_folder (path : string) (size bs : Z)
  : outcome unit :=
  Returned tt.

Definition ConvLearner (data : unit) (arch : string) : outcome nat :=
  Returned 0%nat.

Definition fit_one_cycle (learn : nat) (cyc_len : Z)
    (max_lr : option (R * R)) (pct_start : option R) : outcome nat :=
  Returned (learn + Z.to_nat cyc_len)%nat.

Definition learn_model (learn : nat) : nat := learn.

Definition model_state_dict (net : nat) : list byte := repeat x01 net.

Definition torch_save (sd : list byte) : list byte := sd.

(** The namespace of a run with the default flags. *)
Definition run_args (arch : string) : Training.args R string :=
  Training.Args 2 2 64 (decimal 1 1000) (decimal 9 10) "gloo" 224 arch
    "['algo-1']" "algo-1" Demo.model_dir "/opt/ml/input/data/training" 0.

Definition train (a : Training.args R string) : py unit :=
  Training._train Demo.tvm unit image_data_from_folder nat ConvLearner
    fit_one_cycle nat learn_model (list byte) model_state_dict torch_save a.

Definition save (name : string) (net : nat) (dir : string) : py unit :=
  Training._save_model nat (list byte) model_state_dict torch_save
    name net dir.

(** The command line is not looked at: every flag keeps its default. *)
Definition parse_args (d : Training.parser_defaults R string)
    (argv : list string) : Training.startup (Training.args R string) :=
  Training.Started
    (Training.Args
       (Training.default_workers _ _ d) (Training.default_epochs _ _ d)
       (Training.default_batch_size _ _ d) (Training.default_lr _ _ d)
       (Training.default_momentum _ _ d)
       (Training.default_dist_backend _ _ d)
       (Training.default_image_size _ _ d)
       (Training.default_model_arch _ _ d)
       (Training.default_hosts _ _ d) (Training.default_current_host _ _ d)
       (Training.default_model_dir _ _ d) (Training.default_data_dir _ _ d)
       0).

Definition main (environ : gmap string string) (argv : list string)
  : Training.startup (py unit) :=
  Training.main Demo.tvm unit image_data_from_folder nat ConvLearner
    fit_one_cycle nat learn_model (list byte) model_state_dict torch_save
    string Some parse_args environ argv.

(** A model directory whose only weights file is not named after a
    torchvision constructor. *)
Definition stale_start : world :=
  World false false
    (fun d => if String.eqb d Demo.model_dir
              then [("resnet_v9.pth", File [x00])] else [])
    (fun _ => []) [].

(** A library whose strict check rejects every weights file. *)
Definition load_strict (dir : string) : py (model (list byte)) :=
  model_fn Demo.tvm Demo.arch_call Demo.create_body Demo.num_features
           Demo.create_head (list byte) Demo.torch_load (fun _ _ => false)
           dir.

(** Networks that return no row, two rows, three scores. *)
Definition no_rows (m : unit) (input : tensor R) : outcome (list (list R)) :=
  Returned [].

Definition three_scores (m : unit) (input : tensor R)
  : outcome (list (list R)) :=
  Returned [[0%R; 0%R; 1%R]].

(** A decoder that identifies nothing. *)
Definition no_decode (body : list byte) : option image := None.

End Lab.

(** * Properties *)

(** ** Running the monad *)

Ltac run_py :=
  unfold value, after, mbind, mret, py_bind, py_ret, outcome_bind,
    outcome_ret, lift, raise, print, logger_info, logger_debug, emit,
    torch_cuda_is_available, set_cudnn_benchmark, glob_glob, read_bytes;
  cbn [fst snd cuda_is_available cudnn_benchmark listdir expand_dirs trace].

Lemma getitem_first {A : Type} (x : A) (l : list A) :
  getitem (x :: l) 0 = Returned x.
Proof. reflexivity. Qed.

(** Globbing and reading look at the file system only. *)
Lemma glob_paths_frame (w : world) (c b : bool) (t : list event)
    (pathname : string) :
  glob_paths (World c b (listdir w) (expand_dirs w) t) pathname
  = glob_paths w pathname.
Proof. reflexivity. Qed.

Lemma file_bytes_listdir (w1 w2 : world) (path : string) :
  listdir w1 = listdir w2 -> file_bytes w1 path = file_bytes w2 path.
Proof.
  intros Hls. unfold file_bytes.
  destruct (os_path_split path) as [dirname basename].
  now rewrite Hls.
Qed.

(** [dict.get] on the metadata table. *)
Lemma dict_get_missing {V : Type} (d : gmap string V) (k : string) (v : V) :
  d !! k = None -> dict_get d k v = v.
Proof. unfold dict_get. now intros ->. Qed.

Lemma dict_get_present {V : Type} (d : gmap string V) (k : string) (v x : V) :
  d !! k = Some x -> dict_get d k v = x.
Proof. unfold dict_get. now intros ->. Qed.

Lemma _model_meta_entries (arch : string) (m : meta) :
  _model_meta !! arch = Some m ->
  arch ∈ ["resnet18"; "resnet34"; "resnet50"; "resnet101"; "resnet152"]
  /\ m = _resnet_meta.
Proof.
  unfold _model_meta. intros Hm.
  repeat (apply lookup_insert_Some in Hm as [[<- <-] | [_ Hm]];
          [split; [set_solver | reflexivity] |]).
  apply lookup_singleton_Some in Hm as [<- <-].
  split; [set_solver | reflexivity].
Qed.

Lemma _model_meta_resnet (arch : string) :
  arch ∈ ["resnet18"; "resnet34"; "resnet50"; "resnet101"; "resnet152"] ->
  _model_meta !! arch = Some _resnet_meta.
Proof.
  intros Hin.
  repeat (apply elem_of_cons in Hin as [-> | Hin]; [reflexivity |]).
  now apply elem_of_nil in Hin.
Qed.

(** ** The model on concrete inputs *)

Example os_path_split_weights :
  os_path_split "/opt/ml/model/resnet34.pth" = ("/opt/ml/model", "resnet34.pth").
Proof. reflexivity. Qed.

Example os_path_splitext_weights :
  os_path_splitext "resnet34.pth" = ("resnet34", ".pth")
  /\ os_path_splitext "resnet.v2.pth" = ("resnet.v2", ".pth")
  /\ os_path_splitext ".pth" = (".pth", "").
Proof. repeat split; reflexivity. Qed.

Example fnmatch_weights :
  fnmatch "resnet34.pth" "resnet*.pth" = true
  /\ fnmatch "resnet.pth" "resnet*.pth" = true
  /\ fnmatch "vgg16.pth" "resnet*.pth" = false
  /\ fnmatch "resnet34.pth.bak" "resnet*.pth" = false.
Proof. repeat split; reflexivity. Qed.

Example py_int_literals :
  py_int "224" = Returned 224%Z
  /\ py_int " 2_99 " = Returned 299%Z
  /\ py_int "-5" = Returned (-5)%Z
  /\ fails (py_int "224px")
  /\ fails (py_int "").
Proof. repeat split; reflexivity. Qed.

Example round_half_to_even :
  map round_half [3; 1; 5; -1; -3; 4]%Z = [2; 0; 2; 0; -2; 2]%Z.
Proof. reflexivity. Qed.

Example resize_picture :
  (fun img => (width img, height img))
    <$> Resize Demo.nearest 256 Demo.picture
  = Returned (341, 256)%Z.
Proof. reflexivity. Qed.

Example model_fn_trace :
  trace (after (Demo.load Demo.model_dir Demo.start))
  = [Logged DEBUG "model_fn";
     Printed "Device Type: cpu";
     Printed "Model architecture is: resnet34";
     Printed "Creating new model";
     Printed "Model created";
     Printed "Loading model weights";
     FileOpened "/opt/ml/model/resnet34.pth";
     Printed "Model weights loaded"].
Proof. vm_compute. reflexivity. Qed.

Example input_fn_on_gpu :
  let r := input_fn (F := R) 224 Demo.nearest Demo.pil_decode Demo.jpeg_body
             "image/jpeg" (World true false Demo.listing (fun _ => []) []) in
  (fun t => (shape t, placed_on t)) <$> value r
  = Returned ([1; 3; 224; 224]%Z, "cuda")
  /\ trace (after r)
     = [Logged INFO "Deserializing the input data.";
        Printed "Device Type: cuda";
        Logged INFO "Processing jpeg image.";
        ImageOpened Demo.jpeg_body;
        Logged INFO "Returning image as PyTorch Variable."].
Proof. split; reflexivity. Qed.

Example json_escapes :
  Json.encode_str ("a\b" +:+ dquote +:+ String "010" (String "001" ""))
  = dquote +:+ "a\\b\" +:+ dquote +:+ "\n\u0001" +:+ dquote.
Proof. reflexivity. Qed.

(** ** Strings, file-name patterns and globbing *)

Lemma append_assoc (s1 s2 s3 : string) :
  (s1 +:+ s2) +:+ s3 = s1 +:+ (s2 +:+ s3).
Proof.
  induction s1 as [| c s1 IH]; [reflexivity |].
  change (String c ((s1 +:+ s2) +:+ s3) = String c (s1 +:+ (s2 +:+ s3))).
  now rewrite IH.
Qed.

Lemma length_append (s1 s2 : string) :
  String.length (s1 +:+ s2) = (String.length s1 + String.length s2)%nat.
Proof.
  induction s1 as [| c s1 IH]; [reflexivity |].
  change (S (String.length (s1 +:+ s2))
          = S (String.length s1 + String.length s2)).
  now rewrite IH.
Qed.

Lemma rfind_from_append (c : ascii) (s1 s2 : string) (i last : Z) :
  rfind_from c (s1 +:+ s2) i last
  = rfind_from c s2 (i + Z.of_nat (String.length s1))%Z
      (rfind_from c s1 i last).
Proof.
  revert i last. induction s1 as [| a s1 IH]; intros i last.
  - change ("" +:+ s2) with s2. cbn. now rewrite Z.add_0_r.
  - change (String a s1 +:+ s2) with (String a (s1 +:+ s2)).
    cbn [rfind_from String.length]. rewrite IH. f_equal. lia.
Qed.

Lemma substring_append_l (s1 s2 : string) :
  substring 0 (String.length s1) (s1 +:+ s2) = s1.
Proof.
  induction s1 as [| a s1 IH].
  - cbn. now destruct ("" +:+ s2).
  - change (String a s1 +:+ s2) with (String a (s1 +:+ s2)).
    cbn. now rewrite IH.
Qed.

Lemma substring_append_r (s1 s2 : string) :
  substring (String.length s1) (String.length s2) (s1 +:+ s2) = s2.
Proof.
  induction s1 as [| a s1 IH].
  - change ("" +:+ s2) with s2. cbn.
    induction s2 as [| b s2 IH2]; [reflexivity |]. cbn. now rewrite IH2.
  - change (String a s1 +:+ s2) with (String a (s1 +:+ s2)).
    cbn. exact IH.
Qed.

(** The pattern [model_fn] globs for always splits into a directory part
    and the file-name pattern [resnet*.pth]. *)
Lemma os_path_split_pattern (model_dir : string) :
  snd (os_path_split (model_dir +:+ "/resnet*.pth")) = "resnet*.pth".
Proof.
  unfold os_path_split.
  assert (Hi : (rfind "/" (model_dir +:+ "/resnet*.pth") + 1)%Z
               = Z.of_nat (String.length (model_dir +:+ "/"))).
  { unfold rfind. rewrite rfind_from_append. cbn [rfind_from Ascii.eqb].
    rewrite length_append. cbn. lia. }
  rewrite Hi.
  assert (Htail : from (Z.of_nat (String.length (model_dir +:+ "/")))
                    (model_dir +:+ "/resnet*.pth") = "resnet*.pth").
  { unfold from. rewrite Nat2Z.id.
    change (model_dir +:+ "/resnet*.pth")
      with (model_dir +:+ ("/" +:+ "resnet*.pth")).
    rewrite <- append_assoc.
    rewrite (length_append (model_dir +:+ "/") "resnet*.pth").
    replace (String.length (model_dir +:+ "/") + String.length "resnet*.pth"
             - String.length (model_dir +:+ "/"))%nat
      with (String.length "resnet*.pth") by lia.
    apply substring_append_r. }
  rewrite Htail. now destruct (_ && _).
Qed.

Lemma fnmatch_list_nil (name : list ascii) :
  fnmatch_list [] name = true <-> name = [].
Proof. destruct name; cbn; split; congruence. Qed.

Lemma fnmatch_list_literal (p : ascii) (pat name : list ascii) :
  Ascii.eqb p "*" = false -> Ascii.eqb p "?" = false ->
  fnmatch_list (p :: pat) name = true
  <-> exists rest, name = p :: rest /\ fnmatch_list pat rest = true.
Proof.
  intros Hstar Hany. cbn [fnmatch_list]. rewrite Hstar.
  destruct name as [| c rest].
  - split; [discriminate | intros (r & Hr & _); discriminate].
  - rewrite Hany. cbn [orb]. rewrite andb_true_iff, Ascii.eqb_eq. split.
    + intros [-> Hrest]. eauto.
    + intros (r & [= -> ->] & Hrest). auto.
Qed.

Lemma fnmatch_list_star (pat name : list ascii) :
  fnmatch_list ("*"%char :: pat) name = true
  <-> exists pre suf, name = pre ++ suf /\ fnmatch_list pat suf = true.
Proof.
  cbn [fnmatch_list]. change (Ascii.eqb "*" "*") with true. cbv iota.
  induction name as [| c name IH].
  - rewrite orb_false_r. split.
    + intros Hm. exists [], []. auto.
    + intros (pre & suf & Hname & Hm).
      symmetry in Hname. apply app_eq_nil in Hname as [_ ->]. exact Hm.
  - rewrite orb_true_iff, IH. split.
    + intros [Hm | (pre & suf & -> & Hm)].
      * exists [], (c :: name). auto.
      * exists (c :: pre), suf. auto.
    + intros (pre & suf & Hname & Hm). destruct pre as [| c' pre].
      * left. cbn in Hname. now rewrite Hname.
      * right. injection Hname as -> ->. eauto.
Qed.

Lemma fnmatch_resnet_pth (n : string) :
  fnmatch n "resnet*.pth" = true
  <-> exists mid : list ascii,
        list_ascii_of_string n
        = list_ascii_of_string "resnet" ++ mid ++ list_ascii_of_string ".pth".
Proof.
  unfold fnmatch. generalize (list_ascii_of_string n) as name. intros name.
  cbn [list_ascii_of_string].
  split.
  - intros Hm.
    do 6 (apply fnmatch_list_literal in Hm as (? & -> & Hm);
          [| reflexivity | reflexivity]).
    apply fnmatch_list_star in Hm as (mid & suf & -> & Hm).
    do 4 (apply fnmatch_list_literal in Hm as (? & -> & Hm);
          [| reflexivity | reflexivity]).
    apply fnmatch_list_nil in Hm as ->. exists mid. reflexivity.
  - intros (mid & ->). cbn [app].
    do 6 (apply fnmatch_list_literal; [reflexivity | reflexivity |];
          eexists; split; [reflexivity |]).
    apply fnmatch_list_star. exists mid. eexists. split; [reflexivity |].
    do 4 (apply fnmatch_list_literal; [reflexivity | reflexivity |];
          eexists; split; [reflexivity |]).
    reflexivity.
Qed.

Lemma fnmatch_resnet_pth_not_hidden (n : string) :
  fnmatch n "resnet*.pth" = true -> String.prefix "." n = false.
Proof.
  intros Hm. apply fnmatch_resnet_pth in Hm as (mid & Hn).
  destruct n as [| c n]; [discriminate |].
  cbn in Hn. injection Hn as -> _. reflexivity.
Qed.

Lemma glob_paths_model_dir (w : world) (model_dir : string) :
  let dirname := fst (os_path_split (model_dir +:+ "/resnet*.pth")) in
  has_magic dirname = false ->
  glob_paths w (model_dir +:+ "/resnet*.pth")
  = map (os_path_join dirname)
        (List.filter (fun n => fnmatch n "resnet*.pth")
                     (map fst (listdir w dirname))).
Proof.
  intros dirname Hmagic. unfold glob_paths.
  pose proof (os_path_split_pattern model_dir) as Hpat.
  subst dirname.
  destruct (os_path_split (model_dir +:+ "/resnet*.pth")) as [dn bn].
  cbn [fst snd] in *. subst bn. rewrite Hmagic.
  cbn [map concat]. rewrite app_nil_r. unfold glob1. f_equal.
  apply List.filter_ext. intros n.
  destruct (fnmatch n "resnet*.pth") eqn:Hm; [| reflexivity].
  now rewrite (fnmatch_resnet_pth_not_hidden n Hm).
Qed.

Section LoaderFacts.

Variable tvm : gset string.
Variable arch_call : string -> bool -> outcome nn_module.
Variable create_body : nn_module -> Z -> outcome nn_module.
Variable num_features : nn_module -> Z.
Variable create_head : Z -> Z -> nn_module.
Variable state_dict : Type.
Variable torch_load : list byte -> outcome state_dict.
Variable fits : nn_module -> state_dict -> bool.

Local Abbreviation create_model :=
  (_create_model arch_call create_body num_features create_head state_dict).
Local Abbreviation load_model :=
  (model_fn tvm arch_call create_body num_features create_head
            state_dict torch_load fits).

Lemma _create_model_run (arch dev : string) (w : world) :
  value (create_model arch dev w)
  = assemble arch_call create_body num_features create_head state_dict
      arch (cut (dict_get _model_meta arch _default_meta))
  /\ listdir (after (create_model arch dev w)) = listdir w
  /\ cuda_is_available (after (create_model arch dev w))
     = cuda_is_available w.
Proof.
  unfold _create_model, assemble. run_py.
  destruct (String.eqb dev "cuda"); run_py;
    destruct (arch_call arch false) as [net|e]; run_py; auto;
    destruct (create_body net _) as [body|e]; run_py; auto.
Qed.

Lemma getattr_tvm_present (name : string) (w : world) :
  name ∈ tvm -> getattr_tvm tvm name w = (w, Returned name).
Proof.
  intros Hin. unfold getattr_tvm.
  destruct (decide (name ∈ tvm)); [reflexivity | contradiction].
Qed.


(** C1 (amended). With no file matching [resnet*.pth] in the model directory
    [model_fn] fails: indexing the empty glob result raises [IndexError].
    With one match or more it takes the first match glob returns, reads the
    architecture name off that file name and loads that file; when the
    library calls on it succeed the model comes back in evaluation mode on
    the chosen device, whatever the other matches are.  The matches are the
    entries of the directory whose names are [resnet], anything, [.pth], in
    the order the directory is scanned. *)
Theorem model_fn_zero_or_first_match (model_dir : string) (w : world) :
  (glob_paths w (model_dir +:+ "/resnet*.pth") = [] ->
     value (load_model model_dir w) = Raised IndexError)
  /\ (forall (first : string) (others : list string) (arch_name : string)
             (net body : nn_module) (content : list byte) (sd : state_dict),
        glob_paths w (model_dir +:+ "/resnet*.pth") = first :: others ->
        arch_name = fst (os_path_splitext (snd (os_path_split first))) ->
        arch_name ∈ tvm ->
        arch_call arch_name false = Returned net ->
        create_body net (cut (dict_get _model_meta arch_name _default_meta))
          = Returned body ->
        file_bytes w (os_path_join model_dir (arch_name +:+ ".pth"))
          = Returned content ->
        torch_load content = Returned sd ->
        fits (Sequential [body; create_head (num_features body * 2)%Z 2%Z]) sd
          = true ->
        value (load_model model_dir w)
        = Returned (Model state_dict
                      (Sequential
                         [body; create_head (num_features body * 2)%Z 2%Z])
                      (Some sd)
                      (if cuda_is_available w then "cuda" else "cpu")
                      false))
  /\ (let dirname := fst (os_path_split (model_dir +:+ "/resnet*.pth")) in
      has_magic dirname = false ->
      glob_paths w (model_dir +:+ "/resnet*.pth")
      = map (os_path_join dirname)
            (List.filter (fun n => fnmatch n "resnet*.pth")
                         (map fst (listdir w dirname)))).
Proof.
  split; [| split; [| apply glob_paths_model_dir]].
  - intros Hglob. unfold model_fn. run_py.
    rewrite glob_paths_frame, Hglob. reflexivity.
  - intros first others arch_name net body content sd
           Hglob Harch Hin Hnet Hbody Hfile Hload Hfits.
    unfold model_fn. run_py. rewrite glob_paths_frame, Hglob.
    rewrite getitem_first. rewrite <- Harch.
    rewrite (getattr_tvm_present _ _ Hin).
    match goal with
    | |- context [create_model arch_name ?d ?w'] =>
        destruct (_create_model_run arch_name d w') as (Hval & Hls & Hcuda);
        destruct (create_model arch_name d w') as [w'' o]
    end.
    unfold value, after in Hval, Hls, Hcuda. cbn [fst snd] in Hval, Hls, Hcuda.
    rewrite Hval. unfold assemble. rewrite Hnet. cbn. rewrite Hbody. cbn.
    unfold open_rb, load_state_dict. run_py.
    erewrite file_bytes_listdir; [rewrite Hfile | cbn; exact Hls].
    rewrite Hload. cbn. rewrite Hfits. reflexivity.
Qed.

End LoaderFacts.


Lemma model_fn_zero_or_first_match_witness :
  value (Demo.load Demo.model_dir Demo.empty_start) = Raised IndexError
  /\ exists m : model (list byte),
       value (Demo.load Demo.model_dir Demo.start) = Returned m
       /\ parameters _ m = Some [x72; x33; x34]
       /\ training _ m = false.
Proof.
  split.
  - apply (model_fn_zero_or_first_match Demo.tvm Demo.arch_call
             Demo.create_body Demo.num_features Demo.create_head
             (list byte) Demo.torch_load Demo.fits
             Demo.model_dir Demo.empty_start).
    vm_compute. reflexivity.
  - eexists. split.
    + eapply (proj1 (proj2 (model_fn_zero_or_first_match Demo.tvm
                       Demo.arch_call Demo.create_body Demo.num_features
                       Demo.create_head (list byte) Demo.torch_load Demo.fits
                       Demo.model_dir Demo.start)))
        with (first := "/opt/ml/model/resnet34.pth")
             (others := ["/opt/ml/model/resnet18.pth"])
             (arch_name := "resnet34")
             (content := [x72; x33; x34]).
      * vm_compute. reflexivity.
      * vm_compute. reflexivity.
      * vm_compute. reflexivity.
      * reflexivity.
      * reflexivity.
      * vm_compute. reflexivity.
      * reflexivity.
      * reflexivity.
    + split; reflexivity.
Defined.

(** Counterexample to C1 as stated: two files of the model directory match
    [resnet*.pth], and [model_fn] does not fail; it returns the model loaded
    from the first of them. *)
Lemma model_fn_two_matches_loads :
  glob_paths Demo.start (Demo.model_dir +:+ "/resnet*.pth")
  = ["/opt/ml/model/resnet34.pth"; "/opt/ml/model/resnet18.pth"]
  /\ ~ fails (value (Demo.load Demo.model_dir Demo.start))
  /\ exists m : model (list byte),
       value (Demo.load Demo.model_dir Demo.start) = Returned m
       /\ parameters _ m = Some [x72; x33; x34].
Proof.
  split; [vm_compute; reflexivity |].
  split.
  - vm_compute. tauto.
  - eexists. split; vm_compute; reflexivity.
Qed.

(** ** Decoding and preprocessing *)

Lemma round_half_offset (d size : Z) :
  (round_half d + size - round_half d = size)%Z.
Proof. lia. Qed.

Section DecodeFacts.

Context {F : Type} `{Float F}.
Variable IMG_SIZE : Z.
Variable bilinear : image -> Z -> Z -> (Z -> Z -> Z -> Z).
Variable pil_decode : list byte -> option image.

Local Abbreviation preprocess := (_preprocess (F := F) IMG_SIZE bilinear).
Local Abbreviation decode_request :=
  (input_fn (F := F) IMG_SIZE bilinear pil_decode).

(** The shorter side of the resized picture is [size]. *)
Lemma Resize_shorter_side (size : Z) (img : image) :
  (0 < size)%Z -> (0 < width img)%Z -> (0 < height img)%Z ->
  exists resized : image,
    Resize bilinear size img = Returned resized
    /\ Z.min (width resized) (height resized) = size.
Proof.
  intros Hs Hw Hh. unfold Resize, int_div.
  destruct (((width img <=? height img)%Z && (width img =? size)%Z)
            || ((height img <=? width img)%Z && (height img =? size)%Z))
    eqn:Hsame.
  - exists img. split; [reflexivity |].
    apply orb_prop in Hsame as [Hc | Hc];
      apply andb_prop in Hc as [Hle Heq];
      apply Z.leb_le in Hle; apply Z.eqb_eq in Heq; lia.
  - destruct (width img <? height img)%Z eqn:Hlt.
    + apply Z.ltb_lt in Hlt.
      destruct (Z.eqb_spec (width img) 0) as [Hz | _]; [lia |].
      eexists. split; [reflexivity |]. cbn [width height image_resize].
      assert (size <= Z.quot (size * height img) (width img))%Z
        by (apply Z.quot_le_lower_bound; nia).
      lia.
    + apply Z.ltb_ge in Hlt.
      destruct (Z.eqb_spec (height img) 0) as [Hz | _]; [lia |].
      eexists. split; [reflexivity |]. cbn [width height image_resize].
      assert (size <= Z.quot (size * width img) (height img))%Z
        by (apply Z.quot_le_lower_bound; nia).
      lia.
Qed.

(** A centre crop to a non-negative size succeeds and has that size, also
    when the picture is smaller than the crop. *)
Lemma CenterCrop_size (size : Z) (img : image) :
  (0 <= size)%Z ->
  exists cropped : image,
    CenterCrop size img = Returned cropped
    /\ width cropped = size /\ height cropped = size.
Proof.
  intros Hs. unfold CenterCrop, image_crop.
  destruct (Z.ltb_spec (round_half (width img - size) + size)
                       (round_half (width img - size))) as [Hbad | _];
    [lia |].
  destruct (Z.ltb_spec (round_half (height img - size) + size)
                       (round_half (height img - size))) as [Hbad | _];
    [lia |].
  eexists. split; [reflexivity |].
  cbn [width height]. split; apply round_half_offset.
Qed.

(** C6. Whatever the dimensions of the decoded picture, [Resize(256)] brings
    its shorter side to 256 and the pipeline returns a tensor of shape
    (3, IMG_SIZE, IMG_SIZE); [IMG_SIZE] is what the environment variable
    IMAGE_SIZE held when the module was imported, 224 when it is not set. *)
Theorem preprocess_output_shape (img : image) :
  (0 < width img)%Z -> (0 < height img)%Z -> (0 < IMG_SIZE)%Z ->
  (exists resized : image,
     Resize bilinear 256 img = Returned resized
     /\ Z.min (width resized) (height resized) = 256%Z)
  /\ (exists t : tensor F,
        preprocess img = Returned t /\ shape t = [3%Z; IMG_SIZE; IMG_SIZE])
  /\ (forall environ : gmap string string,
        environ !! "IMAGE_SIZE" = None ->
        read_IMG_SIZE environ = Returned 224%Z).
Proof.
  intros Hw Hh Hsize.
  destruct (Resize_shorter_side 256 img) as (resized & Hres & Hmin);
    [lia | assumption | assumption |].
  destruct (CenterCrop_size IMG_SIZE resized) as (cropped & Hcrop & Hcw & Hch);
    [lia |].
  split; [| split].
  - exists resized. auto.
  - unfold _preprocess. rewrite Hres. cbn. rewrite Hcrop. cbn.
    eexists. split; [reflexivity |].
    cbn. now rewrite Hcw, Hch.
  - intros environ Hnone. unfold read_IMG_SIZE.
    rewrite (dict_get_missing _ _ _ Hnone). reflexivity.
Qed.

(** C3. A request whose declared content type is not [image/jpeg] is
    rejected with the unsupported-content-type exception after the first log
    record and nothing else: the body is never handed to the image decoder,
    so the outcome is the same for every decoder.  For [image/jpeg] the body
    is handed to the decoder. *)
Theorem input_fn_rejects_other_content_types
    (request_body : list byte) (content_type : string) (w : world) :
  (content_type <> JPEG_CONTENT_TYPE ->
     value (decode_request request_body content_type w)
     = Raised (Exception
                 ("Requested unsupported ContentType in content_type: "
                  +:+ content_type))
     /\ trace (after (decode_request request_body content_type w))
        = trace w ++ [Logged INFO "Deserializing the input data."]
     /\ forall other_decode : list byte -> option image,
          input_fn (F := F) IMG_SIZE bilinear other_decode
            request_body content_type w
          = decode_request request_body content_type w)
  /\ (content_type = JPEG_CONTENT_TYPE ->
      ImageOpened request_body
        ∈ trace (after (decode_request request_body content_type w))).
Proof.
  split.
  - intros Hne. apply String.eqb_neq in Hne.
    unfold input_fn. run_py. rewrite Hne. cbn. auto.
  - intros ->. unfold input_fn, image_open. run_py.
    rewrite String.eqb_refl.
    destruct (pil_decode request_body) as [img |]; cbn;
      [destruct (_preprocess IMG_SIZE bilinear img); cbn |];
      rewrite !elem_of_app, !list_elem_of_singleton; tauto.
Qed.


End DecodeFacts.

(** ** Predicting *)

Lemma getitem_elem_of {A : Type} (l : list A) (i : Z) (a : A) :
  getitem l i = Returned a -> a ∈ l.
Proof.
  unfold getitem. intros Hget.
  destruct (_ <? 0)%Z; [discriminate |].
  destruct (l !! _) as [x |] eqn:Hx; [| discriminate].
  injection Hget as ->. now apply list_elem_of_lookup_2 in Hx.
Qed.

Lemma getitem_lookup {A : Type} (l : list A) (i : Z) (a : A) :
  (0 <= i)%Z -> getitem l i = Returned a -> l !! Z.to_nat i = Some a.
Proof.
  unfold getitem. intros Hi Hget.
  destruct (Z.ltb_spec i 0) as [Hneg | _]; [lia |].
  destruct (_ <? 0)%Z; [discriminate |].
  destruct (l !! _) as [x |] eqn:Hx; [| discriminate].
  now injection Hget as ->.
Qed.

Section PredictFacts.

Context {F : Type} `{Float F}.
Variable model : Type.
Variable forward : model -> tensor F -> outcome (list (list F)).
Variable repr_float : F -> string.
Variable repr_tensor : list (list F) -> string.

Local Abbreviation predict :=
  (predict_fn (F := F) model forward repr_float repr_tensor).

(** The index [max_scan] returns is the one it started from or that of a
    later element, and the value is the element at that index. *)
Lemma max_scan_index (rest : list F) (best : F) (best_i next_i : Z) :
  (best_i < next_i)%Z ->
  let r := max_scan rest best best_i next_i in
  (r = (best, best_i)
   \/ ((next_i <= snd r < next_i + Z.of_nat (length rest))%Z
       /\ rest !! Z.to_nat (snd r - next_i) = Some (fst r))).
Proof.
  revert best best_i next_i.
  induction rest as [| y rest IH]; intros best best_i next_i Hlt; cbn.
  - now left.
  - destruct (fgtb y best).
    + right. destruct (IH y next_i (next_i + 1)%Z ltac:(lia)) as [-> | [Hr Hl]].
      * cbn. split; [lia |]. now replace (next_i - next_i)%Z with 0%Z by lia.
      * split; [lia |].
        replace (Z.to_nat (snd (max_scan rest y next_i (next_i + 1)) - next_i))
          with (S (Z.to_nat (snd (max_scan rest y next_i (next_i + 1))
                             - (next_i + 1)))) by lia.
        exact Hl.
    + destruct (IH best best_i (next_i + 1)%Z ltac:(lia)) as [-> | [Hr Hl]].
      * now left.
      * right. split; [lia |].
        replace (Z.to_nat (snd (max_scan rest best best_i (next_i + 1))
                           - next_i))
          with (S (Z.to_nat (snd (max_scan rest best best_i (next_i + 1))
                             - (next_i + 1)))) by lia.
        exact Hl.
Qed.

Lemma row_max_index (row : list F) (conf : F) (i : Z) :
  row_max row = Returned (conf, i) ->
  (0 <= i < Z.of_nat (length row))%Z /\ row !! Z.to_nat i = Some conf.
Proof.
  destruct row as [| x rest]; [discriminate |].
  cbn. intros [= Hscan].
  destruct (max_scan_index rest x 0 1 ltac:(lia)) as [Hr | [Hr Hl]];
    rewrite Hscan in *; cbn [fst snd] in *.
  - injection Hr as -> ->. split; [lia | reflexivity].
  - split; [lia |].
    replace (Z.to_nat i) with (S (Z.to_nat (i - 1))) by lia. exact Hl.
Qed.

(** What [predict_fn] returns for one row of two raw scores. *)
Lemma predict_fn_two_scores (input_object : tensor F) (m : model) (w : world)
    (s0 s1 : F) :
  forward m input_object = Returned [[s0; s1]] ->
  forall p0 p1 : F,
    softmax_row [s0; s1] = [p0; p1] ->
    value (predict input_object m w)
    = Returned [("class", PyStr (if fgtb p1 p0 then "dogs" else "cats"));
                ("confidence", PyFloat (if fgtb p1 p0 then p1 else p0))].
Proof.
  intros Hfwd p0 p1 Hsoft.
  unfold predict_fn, torch_max_dim1, F_softmax_dim1. run_py.
  rewrite Hfwd. cbn [map rows_max]. rewrite Hsoft.
  cbn [row_max max_scan]. destruct (fgtb p1 p0); reflexivity.
Qed.

(** Whenever [predict_fn] returns, the batch had one row and the response
    pairs the label at the row's argmax with the row's maximum. *)
Lemma predict_fn_returned (input_object : tensor F) (m : model) (w : world)
    (response : list (string * pyvalue F)) :
  value (predict input_object m w) = Returned response ->
  exists (row : list F) (conf : F) (i : Z) (name : string),
    forward m input_object = Returned [row]
    /\ row_max (softmax_row row) = Returned (conf, i)
    /\ getitem classes i = Returned name
    /\ response = [("class", PyStr name); ("confidence", PyFloat conf)].
Proof.
  unfold predict_fn, torch_max_dim1, F_softmax_dim1. run_py.
  destruct (forward m input_object) as [output | e]; [| discriminate].
  destruct output as [| row output]; [discriminate |].
  cbn [map rows_max]. run_py.
  destruct (row_max (softmax_row row)) as [[conf i] | e] eqn:Hmax;
    [| discriminate].
  destruct (rows_max (map softmax_row output)) as [ms | e] eqn:Hms;
    [| discriminate].
  destruct ms as [| m' ms]; [| discriminate].
  destruct output as [| row' output].
  - cbn. destruct (getitem classes i) as [name | e] eqn:Hname;
      [| discriminate].
    cbn. intros [= <-]. exists row, conf, i, name. auto.
  - cbn in Hms. unfold mbind, outcome_bind, mret, outcome_ret in Hms.
    destruct (row_max (softmax_row row')); [| discriminate].
    destruct (rows_max (map softmax_row output)); discriminate.
Qed.

(** C8. The labels are the pair ("cats", "dogs"), the position being the
    class index; the class of every response [predict_fn] returns is the
    label at the argmax index of the softmax row, hence one of the two; and
    for a row of two raw scores [predict_fn] does return. *)
Theorem predict_fn_class_is_a_label
    (input_object : tensor F) (m : model) (w : world) :
  (classes = ["cats"; "dogs"]
   /\ classes !! 0%nat = Some "cats" /\ classes !! 1%nat = Some "dogs")
  /\ (forall response : list (string * pyvalue F),
        value (predict input_object m w) = Returned response ->
        exists (row : list F) (conf : F) (i : Z) (name : string),
          forward m input_object = Returned [row]
          /\ row_max (softmax_row row) = Returned (conf, i)
          /\ classes !! Z.to_nat i = Some name
          /\ (name = "cats" \/ name = "dogs")
          /\ response = [("class", PyStr name); ("confidence", PyFloat conf)])
  /\ (forall s0 s1 : F,
        forward m input_object = Returned [[s0; s1]] ->
        exists (name : string) (conf : F),
          value (predict input_object m w)
          = Returned [("class", PyStr name); ("confidence", PyFloat conf)]
          /\ (name = "cats" \/ name = "dogs")).
Proof.
  split; [auto |]. split.
  - intros response Hret.
    destruct (predict_fn_returned _ _ _ _ Hret)
      as (row & conf & i & name & Hfwd & Hmax & Hname & ->).
    exists row, conf, i, name.
    destruct (row_max_index _ _ _ Hmax) as [Hi _].
    repeat split; auto.
    + apply getitem_lookup; [lia | assumption].
    + apply getitem_elem_of in Hname. unfold classes in Hname.
      rewrite !elem_of_cons in Hname. rewrite elem_of_nil in Hname. tauto.
  - intros s0 s1 Hfwd.
    destruct (softmax_row [s0; s1]) as [| p0 [| p1 [| ? ?]]] eqn:Hsoft;
      try discriminate.
    eexists _, _. split;
      [exact (predict_fn_two_scores _ _ w _ _ Hfwd _ _ Hsoft) |].
    destruct (fgtb p1 p0); auto.
Qed.

(** C4. With the accept type [application/json] the prediction is written as
    the JSON object with the keys "class" and "confidence", in this order,
    and returned with the accept type; a class name that is one of the
    labels is written as it is, between double quotes.  Any other accept
    type is answered with the unsupported-content-type exception. *)
Theorem output_fn_serializes_json
    (name : string) (conf : F) (accept : string) (w : world) :
  (accept = JSON_CONTENT_TYPE ->
     value (output_fn repr_float
              [("class", PyStr name); ("confidence", PyFloat conf)] accept w)
     = Returned
         ("{" +:+ dquote +:+ "class" +:+ dquote +:+ ": "
              +:+ Json.encode_str name +:+ ", "
              +:+ dquote +:+ "confidence" +:+ dquote +:+ ": "
              +:+ repr_float conf +:+ "}",
          JSON_CONTENT_TYPE))
  /\ (name ∈ classes -> Json.encode_str name = dquote +:+ name +:+ dquote)
  /\ (accept <> JSON_CONTENT_TYPE ->
      forall prediction : list (string * pyvalue F),
        value (output_fn repr_float prediction accept w)
        = Raised (Exception ("Requested unsupported ContentType in Accept: "
                             +:+ accept))).
Proof.
  split; [| split].
  - intros ->. unfold output_fn, Json.dumps, Json.encode_str. run_py.
    cbn [String.eqb Ascii.eqb Bool.eqb JSON_CONTENT_TYPE map join fst snd
         Json.encode_value].
    unfold Json.encode_str.
    change (Json.escape "class") with "class".
    change (Json.escape "confidence") with "confidence".
    rewrite !append_assoc. reflexivity.
  - unfold classes. rewrite !elem_of_cons, elem_of_nil.
    intros [-> | [-> | []]]; reflexivity.
  - intros Hne prediction. apply String.eqb_neq in Hne.
    unfold output_fn. run_py. now rewrite Hne.
Qed.

(** C10. When [output_fn] returns, it returns a pair: the JSON text of the
    prediction and, second, the accept type it was called with, which is
    then [application/json]. *)
Theorem output_fn_returns_pair
    (prediction : list (string * pyvalue F)) (accept : string) (w : world)
    (result : string * string) :
  value (output_fn repr_float prediction accept w) = Returned result ->
  result = (Json.dumps repr_float prediction, accept)
  /\ snd result = accept
  /\ accept = JSON_CONTENT_TYPE.
Proof.
  unfold output_fn. run_py.
  destruct (String.eqb_spec accept JSON_CONTENT_TYPE) as [-> | Hne];
    [| discriminate].
  cbn. intros [= <-]. auto.
Qed.

End PredictFacts.

(** ** Softmax over the reals *)

Section RealScores.

Local Open Scope R_scope.

Lemma Rsum_map_div (l : list R) (t : R) :
  foldr Rplus 0 (map (fun e => e / t) l) = foldr Rplus 0 l / t.
Proof.
  induction l as [| e l IH]; cbn.
  - unfold Rdiv. ring.
  - rewrite IH. unfold Rdiv. ring.
Qed.

Lemma exp_sum_nonneg (row : list R) : 0 <= foldr Rplus 0 (map exp row).
Proof.
  induction row as [| x row IH]; cbn; [lra |].
  pose proof (exp_pos x). lra.
Qed.

Lemma exp_sum_pos (row : list R) :
  row <> [] -> 0 < foldr Rplus 0 (map exp row).
Proof.
  destruct row as [| x row]; [congruence |]. intros _. cbn.
  pose proof (exp_pos x). pose proof (exp_sum_nonneg row). lra.
Qed.

Lemma exp_le_sum (row : list R) (x : R) :
  x ∈ row -> exp x <= foldr Rplus 0 (map exp row).
Proof.
  induction row as [| y row IH]; [now rewrite elem_of_nil |].
  rewrite elem_of_cons. cbn. intros [-> | Hin].
  - pose proof (exp_sum_nonneg row). lra.
  - specialize (IH Hin). pose proof (exp_pos y). lra.
Qed.

(** The softmax of a row is a probability distribution. *)
Lemma softmax_row_sum (row : list R) :
  row <> [] -> foldr Rplus 0 (softmax_row row) = 1.
Proof.
  intros Hne. unfold softmax_row. cbn [fexp fadd fdiv of_Z R_Float].
  rewrite Rsum_map_div. pose proof (exp_sum_pos row Hne). field. lra.
Qed.

Lemma softmax_row_bounds (row : list R) (p : R) :
  p ∈ softmax_row row -> 0 < p <= 1.
Proof.
  unfold softmax_row. cbn [fexp fadd fdiv of_Z R_Float].
  rewrite list_elem_of_fmap. intros (e & -> & He).
  apply list_elem_of_fmap in He as (x & -> & Hx).
  assert (Hrow : row <> []) by (intros ->; now apply elem_of_nil in Hx).
  pose proof (exp_sum_pos row Hrow) as Hpos.
  pose proof (exp_le_sum row x Hx) as Hle.
  pose proof (exp_pos x) as Hx0.
  split.
  - now apply Rdiv_lt_0_compat.
  - apply (Rmult_le_reg_r (foldr Rplus 0 (map exp row))); [assumption |].
    unfold Rdiv. rewrite Rmult_assoc, Rinv_l; lra.
Qed.

(** The two probabilities of a row of two scores. *)
Lemma softmax_two (s0 s1 : R) :
  exists p0 p1 : R,
    softmax_row [s0; s1] = [p0; p1]
    /\ p0 = exp s0 / (exp s0 + exp s1)
    /\ p1 = exp s1 / (exp s0 + exp s1)
    /\ 0 < p0 <= 1 /\ 0 < p1 <= 1 /\ p0 + p1 = 1.
Proof.
  pose proof (softmax_row_sum [s0; s1] ltac:(discriminate)) as Hsum.
  pose proof (softmax_row_bounds [s0; s1]) as Hbounds.
  destruct (softmax_row [s0; s1]) as [| p0 [| p1 [| ? ?]]] eqn:Hsoft;
    try discriminate.
  exists p0, p1.
  injection Hsoft as Hp0 Hp1. cbn [fexp fadd fdiv of_Z R_Float] in Hp0, Hp1.
  rewrite Rplus_0_r in Hp0, Hp1.
  cbn in Hsum.
  repeat split; try (symmetry; assumption);
    try (apply Hbounds; rewrite !elem_of_cons; tauto);
    try lra.
Qed.

Variable model : Type.
Variable forward : model -> tensor R -> outcome (list (list R)).
Variable repr_float : R -> string.
Variable repr_tensor : list (list R) -> string.

Local Abbreviation predict :=
  (predict_fn (F := R) model forward repr_float repr_tensor).



End RealScores.

(** ** The hooks on the concrete deployment *)

Lemma preprocess_output_shape_witness :
  exists t : tensor R,
    _preprocess 224 Demo.nearest Demo.picture = Returned t
    /\ shape t = [3; 224; 224]%Z.
Proof.
  apply (preprocess_output_shape (F := R) 224 Demo.nearest Demo.picture);
    reflexivity.
Defined.

Lemma input_fn_rejects_other_content_types_witness :
  value (input_fn (F := R) 224 Demo.nearest Demo.pil_decode
           Demo.jpeg_body "image/png" Demo.start)
  = Raised (Exception
              "Requested unsupported ContentType in content_type: image/png")
  /\ ImageOpened Demo.jpeg_body
       ∈ trace (after (input_fn (F := R) 224 Demo.nearest Demo.pil_decode
                         Demo.jpeg_body "image/jpeg" Demo.start)).
Proof.
  split.
  - apply (input_fn_rejects_other_content_types (F := R) 224 Demo.nearest
             Demo.pil_decode Demo.jpeg_body "image/png" Demo.start).
    discriminate.
  - apply (input_fn_rejects_other_content_types (F := R) 224 Demo.nearest
             Demo.pil_decode Demo.jpeg_body "image/jpeg" Demo.start).
    reflexivity.
Defined.

Lemma predict_fn_class_is_a_label_witness :
  exists (name : string) (conf : R),
    value (predict_fn unit Demo.scorer Demo.repr_float Demo.repr_tensor
             Demo.blank_input tt Demo.start)
    = Returned [("class", PyStr name); ("confidence", PyFloat conf)]
    /\ (name = "cats" \/ name = "dogs").
Proof.
  apply (predict_fn_class_is_a_label unit Demo.scorer Demo.repr_float
           Demo.repr_tensor Demo.blank_input tt Demo.start)
    with (s0 := 0%R) (s1 := 1%R).
  reflexivity.
Defined.

Lemma output_fn_serializes_json_witness :
  value (output_fn Demo.repr_float
           [("class", PyStr "dogs"); ("confidence", PyFloat 1%R)]
           "application/json" Demo.start)
  = Returned
      ("{" +:+ dquote +:+ "class" +:+ dquote +:+ ": "
           +:+ dquote +:+ "dogs" +:+ dquote +:+ ", "
           +:+ dquote +:+ "confidence" +:+ dquote +:+ ": <float>}",
       "application/json")
  /\ value (output_fn Demo.repr_float
              [("class", PyStr "dogs"); ("confidence", PyFloat 1%R)]
              "text/csv" Demo.start)
     = Raised (Exception
                 "Requested unsupported ContentType in Accept: text/csv").
Proof.
  destruct (output_fn_serializes_json Demo.repr_float "dogs" 1%R
              "application/json" Demo.start) as (Hjson & _ & _).
  destruct (output_fn_serializes_json Demo.repr_float "dogs" 1%R
              "text/csv" Demo.start) as (_ & _ & Hother).
  split.
  - apply Hjson. reflexivity.
  - apply Hother. discriminate.
Defined.

Lemma output_fn_returns_pair_witness :
  snd (Json.dumps Demo.repr_float
         [("class", PyStr "cats"); ("confidence", PyFloat 1%R)],
       "application/json")
  = "application/json".
Proof.
  apply (output_fn_returns_pair Demo.repr_float
           [("class", PyStr "cats"); ("confidence", PyFloat 1%R)]
           "application/json" Demo.start).
  reflexivity.
Defined.



(** * Further properties of the script *)

(** ** More on strings and paths *)

Lemma list_ascii_of_string_append (s1 s2 : string) :
  list_ascii_of_string (s1 +:+ s2)
  = list_ascii_of_string s1 ++ list_ascii_of_string s2.
Proof.
  induction s1 as [| c s1 IH]; [reflexivity |].
  change (String c s1 +:+ s2) with (String c (s1 +:+ s2)).
  cbn. now rewrite IH.
Qed.

Lemma string_of_list_ascii_app (l1 l2 : list ascii) :
  string_of_list_ascii (l1 ++ l2)
  = string_of_list_ascii l1 +:+ string_of_list_ascii l2.
Proof.
  induction l1 as [| c l1 IH]; [reflexivity |].
  cbn [app string_of_list_ascii]. rewrite IH. reflexivity.
Qed.

Lemma substring_all (s : string) : substring 0 (String.length s) s = s.
Proof. induction s as [| c s IH]; cbn; [reflexivity | now rewrite IH]. Qed.

Lemma from_0 (s : string) : from 0 s = s.
Proof.
  unfold from. cbn [Z.to_nat]. rewrite Nat.sub_0_r. apply substring_all.
Qed.

Lemma upto_append (s1 s2 : string) :
  upto (Z.of_nat (String.length s1)) (s1 +:+ s2) = s1.
Proof. unfold upto. rewrite Nat2Z.id. apply substring_append_l. Qed.

Lemma from_append (s1 s2 : string) :
  from (Z.of_nat (String.length s1)) (s1 +:+ s2) = s2.
Proof.
  unfold from. rewrite Nat2Z.id, length_append.
  replace (String.length s1 + String.length s2 - String.length s1)%nat
    with (String.length s2) by lia.
  apply substring_append_r.
Qed.

(** [rfind] either finds nothing new or an index from where it started. *)
Lemma rfind_from_ge (c : ascii) (s : string) (i last : Z) :
  rfind_from c s i last = last \/ (i <= rfind_from c s i last)%Z.
Proof.
  revert i last. induction s as [| a s IH]; intros i last; cbn; [auto |].
  destruct (Ascii.eqb a c).
  - right. destruct (IH (i + 1)%Z i) as [-> | Hge]; lia.
  - destruct (IH (i + 1)%Z last) as [-> | Hge]; [auto | right; lia].
Qed.

Lemma rfind_from_absent (c : ascii) (s : string) (i : Z) :
  (0 <= i)%Z -> rfind_from c s i (-1) = (-1)%Z ->
  forall (j last : Z), rfind_from c s j last = last.
Proof.
  revert i. induction s as [| a s IH]; intros i Hi Habs j last; cbn in *;
    [reflexivity |].
  destruct (Ascii.eqb a c).
  - destruct (rfind_from_ge c s (i + 1) i) as [Heq | Hge]; lia.
  - apply (IH (i + 1)%Z); [lia | assumption].
Qed.

Lemma rfind_absent (c : ascii) (s : string) :
  rfind c s = (-1)%Z -> forall (j last : Z), rfind_from c s j last = last.
Proof. intros Habs. now apply (rfind_from_absent c s 0). Qed.

Lemma rfind_lt_length (c : ascii) (s : string) :
  (-1 <= rfind c s < Z.of_nat (String.length s))%Z.
Proof.
  unfold rfind.
  assert (Hgen : forall (i last : Z),
             (last < i)%Z ->
             (last <= rfind_from c s i last
              < i + Z.of_nat (String.length s))%Z).
  { induction s as [| a s IH]; intros i last Hlt; cbn [rfind_from].
    - cbn. lia.
    - cbn [String.length]. destruct (Ascii.eqb a c).
      + specialize (IH (i + 1)%Z i ltac:(lia)). lia.
      + specialize (IH (i + 1)%Z last ltac:(lia)). lia. }
  specialize (Hgen 0%Z (-1)%Z ltac:(lia)). lia.
Qed.

(** A path made of a directory part, a slash and a file name without
    slashes splits at that slash; the directory part of the result does not
    depend on the file name. *)
Lemma os_path_split_dir_file (d n : string) :
  rfind "/" n = (-1)%Z ->
  os_path_split (d +:+ "/" +:+ n)
  = (if negb (String.eqb (d +:+ "/") "") && negb (all_char "/" (d +:+ "/"))
     then rstrip "/" (d +:+ "/") else d +:+ "/", n).
Proof.
  intros Hn. unfold os_path_split.
  assert (Hi : (rfind "/" (d +:+ "/" +:+ n) + 1)%Z
               = Z.of_nat (String.length (d +:+ "/"))).
  { unfold rfind. rewrite rfind_from_append.
    change ("/" +:+ n) with (String "/" n). cbn [rfind_from].
    change (Ascii.eqb "/" "/") with true. cbv iota.
    rewrite (rfind_absent _ _ Hn). rewrite length_append. cbn. lia. }
  rewrite Hi. rewrite <- append_assoc.
  rewrite upto_append, from_append. now destruct (_ && _).
Qed.

Lemma os_path_split_no_slash (n : string) :
  rfind "/" n = (-1)%Z -> os_path_split n = ("", n).
Proof.
  intros Hn. unfold os_path_split. rewrite Hn. cbn [Z.add].
  change (upto 0 n) with (substring 0 0 n). rewrite from_0.
  destruct n; reflexivity.
Qed.

(** Every non-empty string is a string followed by one character. *)
Lemma string_snoc (a : string) :
  a <> "" -> exists (y : string) (c : ascii), a = y +:+ String c "".
Proof.
  induction a as [| c a IH]; [congruence |]. intros _.
  destruct a as [| c' a'].
  - exists "", c. reflexivity.
  - destruct IH as (y & c'' & Hy); [discriminate |].
    exists (String c y), c''. rewrite Hy. reflexivity.
Qed.

Lemma ends_with_slash (a : string) :
  a <> "" ->
  String.eqb (from (Z.of_nat (String.length a) - 1) a) "/" = true ->
  exists y : string, a = y +:+ "/".
Proof.
  intros Hne Hlast. destruct (string_snoc a Hne) as (y & c & ->).
  exists y. f_equal.
  rewrite length_append in Hlast. cbn [String.length] in Hlast.
  replace (Z.of_nat (String.length y + 1) - 1)%Z
    with (Z.of_nat (String.length y)) in Hlast by lia.
  rewrite from_append in Hlast. apply String.eqb_eq in Hlast.
  exact Hlast.
Qed.

(** The file name of a joined path is the name that was joined on. *)
Lemma os_path_split_join (d n : string) :
  rfind "/" n = (-1)%Z ->
  snd (os_path_split (os_path_join d n)) = n.
Proof.
  intros Hn. unfold os_path_join.
  assert (Hpre : String.prefix "/" n = false).
  { destruct n as [| c n]; [reflexivity |].
    change (String.prefix "/" (String c n))
      with (if ascii_dec "/" c then String.prefix "" n else false).
    destruct (ascii_dec "/" c) as [<- | Hc]; [| reflexivity].
    unfold rfind in Hn. cbn [rfind_from] in Hn.
    change (Ascii.eqb "/" "/") with true in Hn. cbv iota in Hn.
    destruct (rfind_from_ge "/" n (0 + 1) 0); lia. }
  rewrite Hpre.
  destruct (String.eqb_spec d "") as [-> | Hd].
  - cbn [orb]. change ("" +:+ n) with n.
    now rewrite os_path_split_no_slash.
  - cbn [orb].
    destruct (String.eqb (from (Z.of_nat (String.length d) - 1) d) "/")
      eqn:Hlast.
    + destruct (ends_with_slash d Hd Hlast) as (y & ->).
      rewrite append_assoc. now rewrite os_path_split_dir_file.
    + now rewrite os_path_split_dir_file.
Qed.

(** A weights file name gives back its stem, dots in the stem included. *)
Lemma os_path_splitext_pth (stem : string) :
  rfind "/" stem = (-1)%Z -> has_non_dot stem = true ->
  os_path_splitext (stem +:+ ".pth") = (stem, ".pth").
Proof.
  intros Hslash Hdot. unfold os_path_splitext.
  assert (Hsep : rfind "/" (stem +:+ ".pth") = (-1)%Z).
  { unfold rfind. rewrite rfind_from_append. cbn [rfind_from Ascii.eqb].
    exact Hslash. }
  assert (Hdoti : rfind "." (stem +:+ ".pth")
                  = Z.of_nat (String.length stem)).
  { unfold rfind. rewrite rfind_from_append. cbn [rfind_from].
    reflexivity. }
  rewrite Hsep, Hdoti. cbn [Z.add].
  rewrite from_0, Z.sub_0_r, upto_append, from_append, Hdot.
  destruct (Z.ltb_spec (-1) (Z.of_nat (String.length stem))); [| lia].
  reflexivity.
Qed.

(** ** More on loading the model *)

Ltac trace_extends :=
  cbn [trace]; rewrite <- ?app_assoc; eexists; reflexivity.

Section LoaderMore.

Variable tvm : gset string.
Variable arch_call : string -> bool -> outcome nn_module.
Variable create_body : nn_module -> Z -> outcome nn_module.
Variable num_features : nn_module -> Z.
Variable create_head : Z -> Z -> nn_module.
Variable state_dict : Type.
Variable torch_load : list byte -> outcome state_dict.
Variable fits : nn_module -> state_dict -> bool.

Local Abbreviation create_model :=
  (_create_model arch_call create_body num_features create_head state_dict).
Local Abbreviation assembled :=
  (assemble arch_call create_body num_features create_head state_dict).
Local Abbreviation load_model :=
  (model_fn tvm arch_call create_body num_features create_head
            state_dict torch_load fits).

(** What [_create_model] changes: the cudnn flag when the device is CUDA,
    and the trace, by its two prints. *)
Lemma _create_model_after (arch dev : string) (w : world) :
  let r := create_model arch dev w in
  listdir (after r) = listdir w
  /\ expand_dirs (after r) = expand_dirs w
  /\ cuda_is_available (after r) = cuda_is_available w
  /\ cudnn_benchmark (after r)
     = (String.eqb dev "cuda" || cudnn_benchmark w)
  /\ exists added : list event,
       trace (after r) = trace w ++ Printed "Creating new model" :: added
       /\ forall path : string, FileOpened path ∉ added.
Proof.
  unfold _create_model. run_py.
  destruct (String.eqb dev "cuda"); run_py;
    destruct (arch_call arch false) as [net | e]; run_py;
    try destruct (create_body net _) as [body | e']; run_py;
    (repeat (split; [reflexivity |]));
    (eexists; split; [rewrite <- ?app_assoc; reflexivity |]);
    intros path Hin;
    repeat (apply elem_of_cons in Hin as [Hin | Hin]; [discriminate |]);
    now apply elem_of_nil in Hin.
Qed.

(** What [model_fn] returns, read off the file system and the library. *)
Lemma model_fn_value (model_dir : string) (w : world) :
  value (load_model model_dir w)
  = (first ← getitem (glob_paths w (model_dir +:+ "/resnet*.pth")) 0;
     let arch_name := fst (os_path_splitext (snd (os_path_split first))) in
     if decide (arch_name ∈ tvm) then
       m ← assembled arch_name
             (cut (dict_get _model_meta arch_name _default_meta));
       content ← file_bytes w (os_path_join model_dir (arch_name +:+ ".pth"));
       sd ← torch_load content;
       if fits (network _ m) sd
       then Returned (Model _ (network _ m) (Some sd)
                        (if cuda_is_available w then "cuda" else "cpu") false)
       else Raised (RuntimeError "Error(s) in loading state_dict")
     else Raised (AttributeError arch_name)).
Proof.
  unfold model_fn. run_py. rewrite glob_paths_frame.
  destruct (getitem _ 0) as [first | e]; [| reflexivity].
  cbv zeta. unfold getattr_tvm.
  destruct (decide (_ ∈ tvm)) as [Hin | Hout]; run_py; [| reflexivity].
  match goal with
  | |- context [create_model ?a ?d ?w'] =>
      destruct (_create_model_run arch_call create_body num_features
                  create_head state_dict a d w') as (Hval & Hls & _);
      destruct (create_model a d w') as [w'' o]
  end.
  unfold value, after in Hval, Hls. cbn [fst snd] in Hval, Hls.
  rewrite Hval.
  destruct (assemble _ _ _ _ _ _ _) as [m | e]; [| reflexivity].
  unfold open_rb, load_state_dict. run_py.
  cbn [listdir] in Hls.
  match goal with
  | |- context [file_bytes ?w1 ?p] =>
      rewrite (file_bytes_listdir w1 w p) by (cbn; exact Hls)
  end.
  destruct (file_bytes w _) as [content | e]; [| reflexivity].
  destruct (torch_load content) as [sd | e]; [| reflexivity].
  destruct (fits (network _ m) sd) eqn:Hfits; cbn; [| reflexivity].
  destruct m as [net params dev tr]. reflexivity.
Qed.

(** X1. [model_fn] reads and never writes: the file system and CUDA
    availability are as before, the cudnn flag is untouched on a machine
    without CUDA, the trace only grows, and the only file it may open is a
    [.pth] file joined on the model directory. *)
Theorem model_fn_reads_only (model_dir : string) (w : world) :
  let r := load_model model_dir w in
  listdir (after r) = listdir w
  /\ expand_dirs (after r) = expand_dirs w
  /\ cuda_is_available (after r) = cuda_is_available w
  /\ (cuda_is_available w = false ->
      cudnn_benchmark (after r) = cudnn_benchmark w)
  /\ exists added : list event,
       trace (after r) = trace w ++ Logged DEBUG "model_fn" :: added
       /\ forall path : string,
            FileOpened path ∈ added ->
            exists stem : string,
              path = os_path_join model_dir (stem +:+ ".pth").
Proof.
  unfold model_fn. run_py. rewrite glob_paths_frame.
  destruct (getitem _ 0) as [first | e]; cbv zeta.
  2:{ cbn. repeat (split; [auto |]).
      eexists. split; [rewrite <- ?app_assoc; reflexivity |].
      intros path Hin.
      repeat (apply elem_of_cons in Hin as [Hin | Hin]; [discriminate |]).
      now apply elem_of_nil in Hin. }
  unfold getattr_tvm.
  destruct (decide (_ ∈ tvm)) as [Hin | Hout]; run_py.
  2:{ cbn. repeat (split; [auto |]).
      eexists. split; [rewrite <- ?app_assoc; reflexivity |].
      intros path Hin.
      repeat (apply elem_of_cons in Hin as [Hin | Hin]; [discriminate |]).
      now apply elem_of_nil in Hin. }
  match goal with
  | |- context [create_model ?a ?d ?w'] =>
      destruct (_create_model_after a d w')
        as (Hls & Hex & Hcuda & Hcudnn & added & Htr & Hno);
      destruct (create_model a d w') as [w'' o]
  end.
  unfold after in Hls, Hex, Hcuda, Hcudnn, Htr.
  cbn [fst snd listdir expand_dirs cuda_is_available cudnn_benchmark trace]
    in Hls, Hex, Hcuda, Hcudnn, Htr.
  assert (Hcpu : cuda_is_available w = false ->
                 cudnn_benchmark w'' = cudnn_benchmark w).
  { intros Hfalse. rewrite Hcudnn, Hfalse. reflexivity. }
  unfold open_rb, load_state_dict. run_py.
  destruct o as [m | e];
    [destruct (file_bytes _ _) as [content | e];
     [destruct (torch_load content) as [sd | e];
      [destruct (fits (network _ m) sd) |] |] |];
    cbn [fst snd listdir expand_dirs cuda_is_available cudnn_benchmark trace];
    (split; [exact Hls |]); (split; [exact Hex |]);
    (split; [exact Hcuda |]); (split; [exact Hcpu |]);
    rewrite Htr; rewrite <- ?app_assoc; cbn [app];
    (eexists; split; [reflexivity |]);
    intros path Hp;
    repeat match type of Hp with
           | _ ∈ _ :: _ =>
               apply elem_of_cons in Hp as [Hp | Hp];
               [first [discriminate Hp | injection Hp as ->; eauto] |]
           | _ ∈ _ ++ _ =>
               apply elem_of_app in Hp as [Hp | Hp];
               [exfalso; exact (Hno _ Hp) |]
           | _ ∈ [] => apply elem_of_nil in Hp; contradiction
           end;
    exfalso; exact (Hno _ Hp).
Qed.

(** Whether the cudnn flag is set: only once [_create_model] is reached,
    and then only on a machine with CUDA. *)
Lemma model_fn_cudnn (model_dir : string) (w : world) :
  cudnn_benchmark (after (load_model model_dir w))
  = match getitem (glob_paths w (model_dir +:+ "/resnet*.pth")) 0 with
    | Returned first =>
        if decide (fst (os_path_splitext (snd (os_path_split first))) ∈ tvm)
        then cuda_is_available w || cudnn_benchmark w
        else cudnn_benchmark w
    | Raised _ => cudnn_benchmark w
    end.
Proof.
  unfold model_fn. run_py. rewrite glob_paths_frame.
  destruct (getitem _ 0) as [first | e]; cbv zeta; [| reflexivity].
  unfold getattr_tvm.
  destruct (decide (_ ∈ tvm)) as [Hin | Hout]; run_py; [| reflexivity].
  match goal with
  | |- context [create_model ?a ?d ?w'] =>
      destruct (_create_model_after a d w') as (_ & _ & _ & Hcudnn & _);
      destruct (create_model a d w') as [w'' o]
  end.
  unfold after in Hcudnn. cbn [fst snd cudnn_benchmark] in Hcudnn.
  assert (Hflag : cudnn_benchmark w''
                  = cuda_is_available w || cudnn_benchmark w).
  { rewrite Hcudnn. now destruct (cuda_is_available w). }
  unfold open_rb, load_state_dict. run_py.
  destruct o as [m | e];
    [destruct (file_bytes _ _) as [content | e];
     [destruct (torch_load content) as [sd | e];
      [destruct (fits (network _ m) sd) |] |] |];
    exact Hflag.
Qed.

(** X2. Whatever [model_fn] returns is ready to serve: in evaluation mode,
    on the device the machine offers, with weights loaded that passed the
    strict check against its network, a network of exactly two parts (body
    and head); on a machine with CUDA the cudnn benchmark flag is then
    set. *)
Theorem model_fn_returns_ready
    (model_dir : string) (w : world) (m : model state_dict) :
  value (load_model model_dir w) = Returned m ->
  training _ m = false
  /\ device _ m = (if cuda_is_available w then "cuda" else "cpu")
  /\ (exists sd : state_dict,
        parameters _ m = Some sd /\ fits (network _ m) sd = true)
  /\ (exists body head : nn_module, network _ m = Sequential [body; head])
  /\ (cuda_is_available w = true ->
      cudnn_benchmark (after (load_model model_dir w)) = true).
Proof.
  intros Hret. pose proof (model_fn_cudnn model_dir w) as Hflag.
  rewrite model_fn_value in Hret.
  unfold mbind, outcome_bind in Hret.
  destruct (getitem _ 0) as [first | e]; [| discriminate].
  cbv zeta in Hret.
  destruct (decide (_ ∈ tvm)) as [Hin | Hout]; [| discriminate].
  destruct (assemble _ _ _ _ _ _ _) as [m0 | e] eqn:Hasm; [| discriminate].
  destruct (file_bytes w _) as [content | e]; [| discriminate].
  destruct (torch_load content) as [sd | e]; [| discriminate].
  destruct (fits (network _ m0) sd) eqn:Hfits; [| discriminate].
  injection Hret as <-. cbn [training device parameters network].
  split; [reflexivity |]. split; [reflexivity |].
  split; [eauto |]. split.
  - unfold assemble, mbind, outcome_bind, mret, outcome_ret in Hasm.
    destruct (arch_call _ false) as [net | e]; [| discriminate].
    destruct (create_body net _) as [body | e]; [| discriminate].
    injection Hasm as <-. cbn. eauto.
  - intros Hcuda. rewrite Hflag, Hcuda. reflexivity.
Qed.

(** X3. When the first match is not named after a torchvision constructor,
    [model_fn] stops with [AttributeError] right after announcing the name:
    no network is built, no file is opened and the cudnn flag is left
    alone. *)
Theorem model_fn_unknown_architecture
    (model_dir : string) (w : world) (first : string) (others : list string) :
  glob_paths w (model_dir +:+ "/resnet*.pth") = first :: others ->
  fst (os_path_splitext (snd (os_path_split first))) ∉ tvm ->
  let arch_name := fst (os_path_splitext (snd (os_path_split first))) in
  let r := load_model model_dir w in
  value r = Raised (AttributeError arch_name)
  /\ trace (after r)
     = trace w
       ++ [Logged DEBUG "model_fn";
           Printed ("Device Type: "
                    +:+ (if cuda_is_available w then "cuda" else "cpu"));
           Printed ("Model architecture is: " +:+ arch_name)]
  /\ cudnn_benchmark (after r) = cudnn_benchmark w.
Proof.
  intros Hglob Hout. cbv zeta.
  unfold model_fn. run_py. rewrite glob_paths_frame, Hglob, getitem_first.
  unfold getattr_tvm.
  destruct (decide (_ ∈ tvm)) as [Hin | _]; [contradiction |].
  run_py. cbn. rewrite <- !app_assoc. auto.
Qed.

(** X4. Weights that do not fit the rebuilt network stop the load: when the
    first match names a known architecture and its file deserializes, but
    the strict check of [load_state_dict] fails, [model_fn] raises
    [RuntimeError] and returns no model. *)
Theorem model_fn_weights_mismatch
    (model_dir : string) (w : world) (first : string) (others : list string)
    (m0 : model state_dict) (content : list byte) (sd : state_dict) :
  glob_paths w (model_dir +:+ "/resnet*.pth") = first :: others ->
  let arch_name := fst (os_path_splitext (snd (os_path_split first))) in
  arch_name ∈ tvm ->
  assembled arch_name (cut (dict_get _model_meta arch_name _default_meta))
    = Returned m0 ->
  file_bytes w (os_path_join model_dir (arch_name +:+ ".pth"))
    = Returned content ->
  torch_load content = Returned sd ->
  fits (network _ m0) sd = false ->
  value (load_model model_dir w)
  = Raised (RuntimeError "Error(s) in loading state_dict").
Proof.
  intros Hglob arch_name Hin Hasm Hfile Hload Hfits. subst arch_name.
  rewrite model_fn_value, Hglob, getitem_first.
  unfold mbind, outcome_bind. cbv zeta.
  destruct (decide (_ ∈ tvm)) as [_ | Hout]; [| contradiction].
  now rewrite Hasm, Hfile, Hload, Hfits.
Qed.
End LoaderMore.

(** ** Weights file names *)

Lemma fnmatch_resnet_pth_stem (n : string) :
  fnmatch n "resnet*.pth" = true ->
  exists mid : string, n = ("resnet" +:+ mid) +:+ ".pth".
Proof.
  intros Hm. apply fnmatch_resnet_pth in Hm as (mid & Hn).
  exists (string_of_list_ascii mid).
  rewrite <- (string_of_list_ascii_of_string n), Hn.
  rewrite !string_of_list_ascii_app. cbn [list_ascii_of_string].
  now rewrite append_assoc.
Qed.

Lemma fnmatch_resnet_pth_of_stem (mid : string) :
  fnmatch (("resnet" +:+ mid) +:+ ".pth") "resnet*.pth" = true.
Proof.
  apply fnmatch_resnet_pth. exists (list_ascii_of_string mid).
  now rewrite !list_ascii_of_string_append.
Qed.

Lemma rfind_stem (c : ascii) (stem : string) :
  Ascii.eqb "." c = false -> Ascii.eqb "p" c = false ->
  Ascii.eqb "t" c = false -> Ascii.eqb "h" c = false ->
  rfind c (stem +:+ ".pth") = rfind c stem.
Proof.
  intros H1 H2 H3 H4. unfold rfind. rewrite rfind_from_append.
  cbn [rfind_from]. now rewrite H1, H2, H3, H4.
Qed.

(** X5. For a directory entry that matches [resnet*.pth], the architecture
    name [model_fn] reads off the glob result is the entry's name without
    its last four characters, dots inside the name included; so the file it
    then opens carries the name of the entry it matched. *)
Theorem arch_name_of_matching_entry (dirname n : string) :
  fnmatch n "resnet*.pth" = true ->
  rfind "/" n = (-1)%Z ->
  exists stem : string,
    n = stem +:+ ".pth"
    /\ String.prefix "resnet" stem = true
    /\ fst (os_path_splitext (snd (os_path_split (os_path_join dirname n))))
       = stem.
Proof.
  intros Hm Hslash. destruct (fnmatch_resnet_pth_stem n Hm) as (mid & ->).
  exists ("resnet" +:+ mid). split; [reflexivity |]. split.
  - change ("resnet" +:+ mid)
      with (String "r" (String "e" (String "s" (String "n"
             (String "e" (String "t" mid)))))).
    cbn. now destruct mid.
  - rewrite (os_path_split_join _ _ Hslash).
    rewrite os_path_splitext_pth; [reflexivity | | reflexivity].
    now rewrite rfind_stem in Hslash.
Qed.

(** ** Saving, and loading what was saved *)

Import Training.

Lemma find_dict_setitem {V : Type} (l : list (string * V)) (k : string)
    (v : V) :
  List.find (fun e => String.eqb (fst e) k) (dict_setitem l k v)
  = Some (k, v).
Proof.
  induction l as [| [k' v'] l IH]; cbn.
  - now rewrite String.eqb_refl.
  - destruct (String.eqb k' k) eqn:Hk; cbn.
    + now rewrite String.eqb_refl.
    + now rewrite Hk.
Qed.

Lemma find_dict_setitem_other {V : Type} (l : list (string * V))
    (k k' : string) (v : V) :
  k' <> k ->
  List.find (fun e => String.eqb (fst e) k') (dict_setitem l k v)
  = List.find (fun e => String.eqb (fst e) k') l.
Proof.
  intros Hne. induction l as [| [k0 v0] l IH]; cbn.
  - destruct (String.eqb_spec k k'); [congruence | reflexivity].
  - destruct (String.eqb_spec k0 k) as [-> | Hk0]; cbn.
    + destruct (String.eqb_spec k k'); [congruence |].
      destruct (String.eqb_spec k k'); [congruence | reflexivity].
    + destruct (String.eqb k0 k'); [reflexivity | exact IH].
Qed.

(** The names of a directory after writing one entry, filtered: names that
    were not selected before stay out, the written name is judged on its
    own. *)
Lemma filter_keys_dict_setitem {V : Type} (f : string -> bool)
    (l : list (string * V)) (k : string) (v : V) :
  (forall n : string, n ∈ map fst l -> f n = false) ->
  List.filter f (map fst (dict_setitem l k v)) = if f k then [k] else [].
Proof.
  intros Hnone. induction l as [| [k' v'] l IH]; cbn.
  - reflexivity.
  - assert (Hk' : f k' = false) by (apply Hnone; cbn; left).
    assert (Hl : forall n : string, n ∈ map fst l -> f n = false)
      by (intros n Hn; apply Hnone; cbn; now right).
    destruct (String.eqb_spec k' k) as [-> | Hne]; cbn.
    + rewrite Hk'. clear IH. induction l as [| [k0 v0] l IHl]; cbn.
      * reflexivity.
      * rewrite (Hl k0) by (cbn; left). apply IHl.
        -- intros n Hn. apply Hnone. cbn in *.
           apply elem_of_cons in Hn as [-> | Hn]; [left |].
           do 2 right. exact Hn.
        -- intros n Hn. apply Hl. cbn. now right.
    + rewrite Hk'. now apply IH.
Qed.

Lemma find_none_of_filter {V : Type} (f : string -> bool)
    (l : list (string * V)) (k : string) :
  (forall n : string, n ∈ map fst l -> f n = false) -> f k = true ->
  List.find (fun e => String.eqb (fst e) k) l = None.
Proof.
  intros Hnone Hk. induction l as [| [k' v'] l IH]; cbn; [reflexivity |].
  destruct (String.eqb_spec k' k) as [-> | Hne].
  - rewrite (Hnone k) in Hk by (cbn; left). discriminate.
  - apply IH. intros n Hn. apply Hnone. cbn. now right.
Qed.

(** A model directory that is not empty and does not end in a slash: the
    joined path is the directory, a slash, the name. *)
Lemma os_path_join_plain (d n : string) :
  d <> "" ->
  String.eqb (from (Z.of_nat (String.length d) - 1) d) "/" = false ->
  rfind "/" n = (-1)%Z ->
  os_path_join d n = d +:+ "/" +:+ n.
Proof.
  intros Hd Hlast Hn. unfold os_path_join.
  assert (Hpre : String.prefix "/" n = false).
  { destruct n as [| c n]; [reflexivity |].
    change (String.prefix "/" (String c n))
      with (if ascii_dec "/" c then String.prefix "" n else false).
    destruct (ascii_dec "/" c) as [<- | Hc]; [| reflexivity].
    unfold rfind in Hn. cbn [rfind_from] in Hn.
    change (Ascii.eqb "/" "/") with true in Hn. cbv iota in Hn.
    destruct (rfind_from_ge "/" n (0 + 1) 0); lia. }
  rewrite Hpre, Hlast.
  destruct (String.eqb_spec d ""); [contradiction | reflexivity].
Qed.

Lemma all_char_append (c : ascii) (a b : string) :
  all_char c (a +:+ b) = all_char c a && all_char c b.
Proof.
  induction a as [| x a IH]; [reflexivity |].
  change (String x a +:+ b) with (String x (a +:+ b)).
  cbn [all_char]. rewrite IH. now rewrite andb_assoc.
Qed.

(** For a model directory that is not empty and does not end in a slash,
    a file joined on it splits back into the directory and the file. *)
Lemma os_path_split_plain (d n : string) :
  d <> "" ->
  String.eqb (from (Z.of_nat (String.length d) - 1) d) "/" = false ->
  rfind "/" n = (-1)%Z ->
  os_path_split (d +:+ "/" +:+ n) = (d, n).
Proof.
  intros Hd Hlast Hn. rewrite os_path_split_dir_file by assumption.
  destruct (string_snoc d Hd) as (y & c & ->).
  rewrite length_append in Hlast. cbn [String.length] in Hlast.
  replace (Z.of_nat (String.length y + 1) - 1)%Z
    with (Z.of_nat (String.length y)) in Hlast by lia.
  rewrite from_append in Hlast.
  assert (Hc : Ascii.eqb c "/" = false).
  { cbn in Hlast. destruct (Ascii.eqb c "/"); [discriminate | reflexivity]. }
  assert (Hne : String.eqb ((y +:+ String c "") +:+ "/") "" = false).
  { destruct y; reflexivity. }
  assert (Hall : all_char "/" ((y +:+ String c "") +:+ "/") = false).
  { rewrite !all_char_append. cbn [all_char]. rewrite Hc.
    now rewrite andb_false_r. }
  rewrite Hne, Hall. cbn [negb andb]. f_equal.
  unfold rstrip. rewrite !list_ascii_of_string_append.
  cbn [list_ascii_of_string]. rewrite !rev_app_distr. cbn [rev app].
  cbn [lstrip_list]. change (Ascii.eqb "/" "/") with true. cbv iota.
  rewrite Hc. cbn [rev]. rewrite rev_involutive.
  rewrite string_of_list_ascii_app, string_of_list_ascii_of_string.
  reflexivity.
Qed.

Section TrainingFacts.

Context {F : Type} `{Float F}.
Variable tvm : gset string.
Variable databunch : Type.
Variable image_data_from_folder : string -> Z -> Z -> outcome databunch.
Variable learner : Type.
Variable ConvLearner : databunch -> string -> outcome learner.
Variable fit_one_cycle :
  learner -> Z -> option (F * F) -> option F -> outcome learner.
Variable nn_Module : Type.
Variable learn_model : learner -> nn_Module.
Variable state_dict : Type.
Variable model_state_dict : nn_Module -> state_dict.
Variable torch_save : state_dict -> list byte.

Variable arch_call : string -> bool -> outcome nn_module.
Variable create_body : nn_module -> Z -> outcome nn_module.
Variable num_features : nn_module -> Z.
Variable create_head : Z -> Z -> nn_module.
Variable torch_load : list byte -> outcome state_dict.
Variable fits : nn_module -> state_dict -> bool.

Local Abbreviation save_model :=
  (_save_model nn_Module state_dict model_state_dict torch_save).
Local Abbreviation train :=
  (_train tvm databunch image_data_from_folder learner ConvLearner
          fit_one_cycle nn_Module learn_model state_dict model_state_dict
          torch_save).
Local Abbreviation load_model :=
  (model_fn tvm arch_call create_body num_features create_head
            state_dict torch_load fits).
Local Abbreviation assembled :=
  (assemble arch_call create_body num_features create_head state_dict).

(** What [_save_model] does to the world. *)
Lemma _save_model_run (name : string) (m : nn_Module) (model_dir : string)
    (w : world) :
  let path := os_path_join model_dir (name +:+ ".pth") in
  let dirname := fst (os_path_split path) in
  let basename := snd (os_path_split path) in
  let r := save_model name m model_dir w in
  cuda_is_available (after r) = cuda_is_available w
  /\ cudnn_benchmark (after r) = cudnn_benchmark w
  /\ expand_dirs (after r) = expand_dirs w
  /\ match List.find (fun e => String.eqb (fst e) basename)
                     (listdir w dirname) with
     | Some (_, Directory) =>
         value r = Raised (IsADirectoryError path)
         /\ listdir (after r) = listdir w
     | _ =>
         value r = Returned tt
         /\ listdir (after r)
            = (fun d => if String.eqb d dirname
                        then dict_setitem (listdir w d) basename
                               (File (torch_save (model_state_dict m)))
                        else listdir w d)
     end.
Proof.
  cbv zeta. unfold _save_model, open_wb, write_bytes. run_py.
  destruct (os_path_split (os_path_join model_dir (name +:+ ".pth")))
    as [dirname basename].
  cbn [fst snd].
  destruct (List.find _ (listdir w dirname)) as [[k [content |]] |];
    cbn; auto.
Qed.

Lemma _save_model_trace (name : string) (m : nn_Module) (model_dir : string)
    (w : world) :
  let path := os_path_join model_dir (name +:+ ".pth") in
  let r := save_model name m model_dir w in
  trace (after r)
  = trace w ++ [Printed "Saving the model."; FileOpened path]
    ++ match value r with
       | Returned _ => [Printed "Saved model"]
       | Raised _ => []
       end.
Proof.
  cbv zeta. unfold _save_model, open_wb, write_bytes. run_py.
  destruct (os_path_split (os_path_join model_dir (name +:+ ".pth")))
    as [dirname basename].
  destruct (List.find _ (listdir w dirname)) as [[k [content |]] |];
    cbn; rewrite <- ?app_assoc; reflexivity.
Qed.

(** Saving under a name in a plain model directory that holds no weights
    file yet: what globbing and reading find afterwards. *)
Lemma save_then_glob (name : string) (m : nn_Module) (model_dir : string)
    (w : world) :
  rfind "/" name = (-1)%Z ->
  model_dir <> "" ->
  String.eqb (from (Z.of_nat (String.length model_dir) - 1) model_dir) "/"
    = false ->
  has_magic model_dir = false ->
  (forall n : string,
     n ∈ map fst (listdir w model_dir) -> fnmatch n "resnet*.pth" = false) ->
  let path := os_path_join model_dir (name +:+ ".pth") in
  let r := save_model name m model_dir w in
  value r = Returned tt ->
  glob_paths (after r) (model_dir +:+ "/resnet*.pth")
  = (if fnmatch (name +:+ ".pth") "resnet*.pth" then [path] else [])
  /\ file_bytes (after r) path
     = Returned (torch_save (model_state_dict m))
  /\ cuda_is_available (after r) = cuda_is_available w.
Proof.
  intros Hslash Hd Hlast Hmagic Hnone path r Hsaved.
  assert (Hfile : rfind "/" (name +:+ ".pth") = (-1)%Z)
    by now rewrite rfind_stem.
  assert (Hpath : path = model_dir +:+ "/" +:+ (name +:+ ".pth"))
    by now apply os_path_join_plain.
  assert (Hsplit : os_path_split path = (model_dir, name +:+ ".pth"))
    by (rewrite Hpath; now apply os_path_split_plain).
  assert (Hdir : fst (os_path_split (model_dir +:+ "/resnet*.pth"))
                 = model_dir).
  { change (model_dir +:+ "/resnet*.pth")
      with (model_dir +:+ "/" +:+ "resnet*.pth").
    now rewrite os_path_split_plain. }
  destruct (_save_model_run name m model_dir w)
    as (Hcuda & _ & Hex & Hcase).
  fold path in Hcase. fold r in Hcase, Hcuda, Hex.
  rewrite Hsplit in Hcase. cbn [fst snd] in Hcase.
  assert (Hls : listdir (after r)
                = (fun d => if String.eqb d model_dir
                            then dict_setitem (listdir w d) (name +:+ ".pth")
                                   (File (torch_save (model_state_dict m)))
                            else listdir w d)).
  { destruct (List.find _ (listdir w model_dir)) as [[k [content |]] |];
      destruct Hcase as [Hv Hl]; try exact Hl.
    rewrite Hv in Hsaved. discriminate. }
  split; [| split; [| exact Hcuda]].
  - pose proof (glob_paths_model_dir (after r) model_dir) as Hglob.
    cbv zeta in Hglob. rewrite Hdir in Hglob.
    rewrite (Hglob Hmagic), Hls, String.eqb_refl.
    rewrite (filter_keys_dict_setitem _ _ _ _ Hnone).
    now destruct (fnmatch (name +:+ ".pth") "resnet*.pth").
  - unfold file_bytes. rewrite Hsplit, Hls, String.eqb_refl.
    now rewrite find_dict_setitem.
Qed.


Lemma append_inj_l (a b s : string) : a +:+ s = b +:+ s -> a = b.
Proof.
  intros Heq.
  rewrite <- (string_of_list_ascii_of_string a).
  rewrite <- (string_of_list_ascii_of_string b). f_equal.
  apply (f_equal list_ascii_of_string) in Heq.
  rewrite !list_ascii_of_string_append in Heq.
  now apply app_inv_tail in Heq.
Qed.

Lemma fnmatch_needs_resnet (name : string) :
  String.prefix "resnet" name = false ->
  fnmatch (name +:+ ".pth") "resnet*.pth" = false.
Proof.
  intros Hpre. destruct (fnmatch _ _) eqn:Hm; [| reflexivity].
  apply fnmatch_resnet_pth_stem in Hm as (mid & Heq).
  apply append_inj_l in Heq. subst name.
  change ("resnet" +:+ mid)
    with (String "r" (String "e" (String "s" (String "n"
           (String "e" (String "t" mid)))))) in Hpre.
  cbn in Hpre. now destruct mid.
Qed.


(** X7. A model saved under a name that does not start with [resnet] cannot
    be served: in a plain model directory without weights files, after the
    save has succeeded [model_fn] still finds nothing and raises
    [IndexError], whether or not torchvision knows the name. *)
Theorem save_other_name_cannot_load (name : string) (m : nn_Module)
    (model_dir : string) (w : world) :
  String.prefix "resnet" name = false ->
  rfind "/" name = (-1)%Z ->
  model_dir <> "" ->
  String.eqb (from (Z.of_nat (String.length model_dir) - 1) model_dir) "/"
    = false ->
  has_magic model_dir = false ->
  (forall n : string,
     n ∈ map fst (listdir w model_dir) -> fnmatch n "resnet*.pth" = false) ->
  let saved := save_model name m model_dir w in
  value saved = Returned tt ->
  value (load_model model_dir (after saved)) = Raised IndexError.
Proof.
  intros Hpre Hslash Hd Hlast Hmagic Hnone saved Hsaved.
  destruct (save_then_glob name m model_dir w Hslash Hd Hlast Hmagic Hnone
              Hsaved) as (Hglob & _ & _).
  fold saved in Hglob. rewrite (fnmatch_needs_resnet name Hpre) in Hglob.
  rewrite (model_fn_value tvm arch_call create_body num_features create_head
             state_dict torch_load fits).
  now rewrite Hglob.
Qed.

(** *** Training *)

Section Train.

Variable literal : Type.

(** When the library calls succeed, [_train] comes down to saving the
    twice-fitted learner's network. *)
Lemma _train_run (a : args F literal) (w : world) (data : databunch)
    (l0 l1 l2 : learner) :
  image_data_from_folder (data_dir a) (image_size a) (batch_size a)
    = Returned data ->
  model_arch a ∈ tvm ->
  ConvLearner data (model_arch a) = Returned l0 ->
  fit_one_cycle l0 1 None None = Returned l1 ->
  fit_one_cycle l1 (epochs a) (Some (decimal 1 100000, decimal 3 10000))
    (Some (decimal 5 100)) = Returned l2 ->
  train a w
  = save_model (model_arch a) (learn_model l2) (model_dir a)
      (World (cuda_is_available w) (cudnn_benchmark w) (listdir w)
         (expand_dirs w)
         (trace w ++ train_prints a (cuda_is_available w))).
Proof.
  intros Hdata Hin Hlearn Hfit1 Hfit2.
  unfold _train. run_py. rewrite Hdata. cbn [fst snd].
  rewrite (getattr_tvm_present _ _ _ Hin). run_py.
  rewrite Hlearn, Hfit1, Hfit2. cbn [fst snd].
  unfold train_prints. rewrite <- !app_assoc. reflexivity.
Qed.

(** X8. Training with an architecture torchvision does not have writes
    nothing: [_train] fails, the file system is as before and no file is
    opened that was not open before; when the training data loads, the failure is the
    [AttributeError] for that name, raised before any learner is built. *)
Theorem train_unknown_architecture (a : args F literal) (w : world) :
  model_arch a ∉ tvm ->
  let r := train a w in
  fails (value r)
  /\ listdir (after r) = listdir w
  /\ (forall path : string,
        FileOpened path ∈ trace (after r) -> FileOpened path ∈ trace w)
  /\ (forall data : databunch,
        image_data_from_folder (data_dir a) (image_size a) (batch_size a)
          = Returned data ->
        value r = Raised (AttributeError (model_arch a))).
Proof.
  intros Hout. cbv zeta. unfold _train, getattr_tvm. run_py.
  destruct (image_data_from_folder _ _ _) as [data | e]; cbn [fst snd].
  - destruct (decide (model_arch a ∈ tvm)) as [Hin | _]; [contradiction |].
    run_py. cbn. repeat split; auto.
    intros path Hp.
    rewrite !elem_of_app, !list_elem_of_singleton in Hp.
    destruct Hp as [[[[Hp | Hp] | Hp] | Hp] | Hp];
      [assumption | discriminate..].
  - cbn. repeat split; auto.
    + intros path Hp.
      rewrite !elem_of_app, !list_elem_of_singleton in Hp.
      destruct Hp as [[[Hp | Hp] | Hp] | Hp];
        [assumption | discriminate..].
    + discriminate.
Qed.



(** *** Starting the script *)

Variable literal_eval : string -> option literal.
Variable parse_args :
  parser_defaults F literal -> list string -> startup (args F literal).

Local Abbreviation run_main :=
  (main tvm databunch image_data_from_folder learner ConvLearner
        fit_one_cycle nn_Module learn_model state_dict model_state_dict
        torch_save literal literal_eval parse_args).

(** X11. The script needs all five SageMaker variables, also when the
    command line gives the values: training starts only if [SM_HOSTS],
    [SM_CURRENT_HOST], [SM_MODEL_DIR], [SM_CHANNEL_TRAINING] and
    [SM_NUM_GPUS] are all set, and when one is missing the script stops
    with the same error whatever the command line is; a missing [SM_HOSTS]
    is reported first, as [KeyError]. *)
Theorem main_needs_environment
    (environ : gmap string string) (argv : list string) :
  (forall t : py unit,
     run_main environ argv = Started t ->
     (forall key : string,
        key ∈ ["SM_HOSTS"; "SM_CURRENT_HOST"; "SM_MODEL_DIR";
               "SM_CHANNEL_TRAINING"; "SM_NUM_GPUS"] ->
        is_Some (environ !! key))
     /\ exists a : args F literal, t = train a)
  /\ (forall key : string,
        key ∈ ["SM_HOSTS"; "SM_CURRENT_HOST"; "SM_MODEL_DIR";
               "SM_CHANNEL_TRAINING"; "SM_NUM_GPUS"] ->
        environ !! key = None ->
        exists e : startup_error,
          forall argv' : list string, run_main environ argv' = Aborted e)
  /\ (environ !! "SM_HOSTS" = None ->
      run_main environ argv = Aborted (KeyError "SM_HOSTS")).
Proof.
  unfold main, environ_getitem, mbind, startup_bind, mret, startup_ret.
  split; [| split].
  - intros t Hstart.
    destruct (environ !! "SM_HOSTS") as [hosts |] eqn:H1; [| discriminate].
    destruct (literal_eval hosts) as [lit |]; [| discriminate].
    destruct (environ !! "SM_CURRENT_HOST") eqn:H2; [| discriminate].
    destruct (environ !! "SM_MODEL_DIR") eqn:H3; [| discriminate].
    destruct (environ !! "SM_CHANNEL_TRAINING") eqn:H4; [| discriminate].
    destruct (environ !! "SM_NUM_GPUS") eqn:H5; [| discriminate].
    destruct (parse_args _ argv) as [a |]; [| discriminate].
    injection Hstart as <-. split; [| eauto].
    intros key Hkey.
    repeat (apply elem_of_cons in Hkey as [-> | Hkey];
            [rewrite ?H1, ?H2, ?H3, ?H4, ?H5; eauto |]).
    now apply elem_of_nil in Hkey.
  - intros key Hkey Hmissing.
    destruct (environ !! "SM_HOSTS") as [hosts |] eqn:H1; [| eauto].
    destruct (literal_eval hosts) as [lit |]; [| eauto].
    destruct (environ !! "SM_CURRENT_HOST") eqn:H2; [| eauto].
    destruct (environ !! "SM_MODEL_DIR") eqn:H3; [| eauto].
    destruct (environ !! "SM_CHANNEL_TRAINING") eqn:H4; [| eauto].
    destruct (environ !! "SM_NUM_GPUS") eqn:H5; [| eauto].
    exfalso.
    repeat (apply elem_of_cons in Hkey as [-> | Hkey]; [congruence |]).
    now apply elem_of_nil in Hkey.
  - now intros ->.
Qed.

End Train.

End TrainingFacts.

(** ** More on decoding a request *)

Section DecodeMore.

Context {F : Type} `{Float F}.
Variable IMG_SIZE : Z.
Variable bilinear : image -> Z -> Z -> (Z -> Z -> Z -> Z).
Variable pil_decode : list byte -> option image.

Local Abbreviation decode_request :=
  (input_fn (F := F) IMG_SIZE bilinear pil_decode).

(** A decodable JPEG request, step by step. *)
Lemma input_fn_jpeg_run (request_body : list byte) (w : world) (img : image) :
  pil_decode request_body = Some img ->
  (0 < width img)%Z -> (0 < height img)%Z -> (0 < IMG_SIZE)%Z ->
  exists (resized cropped : image),
    Resize bilinear 256 img = Returned resized
    /\ CenterCrop IMG_SIZE resized = Returned cropped
    /\ width cropped = IMG_SIZE /\ height cropped = IMG_SIZE
    /\ decode_request request_body JPEG_CONTENT_TYPE w
       = (World (cuda_is_available w) (cudnn_benchmark w) (listdir w)
            (expand_dirs w)
            (trace w
             ++ [Logged INFO "Deserializing the input data.";
                 Printed ("Device Type: "
                          +:+ (if cuda_is_available w then "cuda" else "cpu"));
                 Logged INFO "Processing jpeg image.";
                 ImageOpened request_body;
                 Logged INFO "Returning image as PyTorch Variable."]),
          Returned
            (tensor_to
               (unsqueeze_0
                  (Normalize
                     [decimal 485 1000; decimal 456 1000; decimal 406 1000]
                     [decimal 229 1000; decimal 224 1000; decimal 225 1000]
                     (ToTensor cropped)))
               (if cuda_is_available w then "cuda" else "cpu"))).
Proof.
  intros Hdec Hw Hh Hsize.
  destruct (Resize_shorter_side bilinear 256 img) as (resized & Hres & _);
    [lia | assumption | assumption |].
  destruct (CenterCrop_size IMG_SIZE resized) as (cropped & Hcrop & Hcw & Hch);
    [lia |].
  exists resized, cropped. repeat (split; [assumption |]).
  unfold input_fn, image_open, _preprocess. run_py.
  rewrite String.eqb_refl, Hdec. cbn [fst snd]. rewrite Hres. cbn.
  rewrite Hcrop. cbn. rewrite <- !app_assoc. reflexivity.
Qed.

(** X12. A decodable JPEG request becomes a batch of one: [input_fn]
    returns a tensor of shape (1, 3, IMG_SIZE, IMG_SIZE), placed on CUDA
    exactly when CUDA is available, and changes nothing in the world but
    the trace. *)
Theorem input_fn_returns_batch_of_one
    (request_body : list byte) (w : world) (img : image) :
  pil_decode request_body = Some img ->
  (0 < width img)%Z -> (0 < height img)%Z -> (0 < IMG_SIZE)%Z ->
  let r := decode_request request_body JPEG_CONTENT_TYPE w in
  (exists t : tensor F,
     value r = Returned t
     /\ shape t = [1; 3; IMG_SIZE; IMG_SIZE]%Z
     /\ placed_on t = (if cuda_is_available w then "cuda" else "cpu"))
  /\ listdir (after r) = listdir w
  /\ cudnn_benchmark (after r) = cudnn_benchmark w
  /\ cuda_is_available (after r) = cuda_is_available w.
Proof.
  intros Hdec Hw Hh Hsize.
  destruct (input_fn_jpeg_run request_body w img Hdec Hw Hh Hsize)
    as (resized & cropped & _ & _ & Hcw & Hch & Hrun).
  cbv zeta. rewrite Hrun. cbn [value after fst snd].
  split; [| auto].
  eexists. split; [reflexivity |]. cbn. now rewrite Hcw, Hch.
Qed.

(** X13. Bytes PIL cannot identify are rejected after the attempt to open
    them: [input_fn] raises [OSError], the last thing recorded is the
    opening of the image, and no tensor is built. *)
Theorem input_fn_undecodable (request_body : list byte) (w : world) :
  pil_decode request_body = None ->
  let r := decode_request request_body JPEG_CONTENT_TYPE w in
  value r = Raised (OSError "cannot identify image file")
  /\ trace (after r)
     = trace w
       ++ [Logged INFO "Deserializing the input data.";
           Printed ("Device Type: "
                    +:+ (if cuda_is_available w then "cuda" else "cpu"));
           Logged INFO "Processing jpeg image.";
           ImageOpened request_body].
Proof.
  intros Hdec. cbv zeta. unfold input_fn, image_open. run_py.
  rewrite String.eqb_refl, Hdec. cbn. now rewrite <- !app_assoc.
Qed.

End DecodeMore.

(** ** More on predicting *)

Lemma value_bind {A B : Type} (c : py A) (f : A -> py B) (w : world) :
  value ((c ≫= f) w)
  = match value (c w) with
    | Returned a => value (f a (after (c w)))
    | Raised e => Raised e
    end.
Proof.
  unfold value, after, mbind, py_bind.
  destruct (c w) as [w' [a | e]]; reflexivity.
Qed.

Lemma value_emit (ev : event) (w : world) : value (emit ev w) = Returned tt.
Proof. reflexivity. Qed.

Lemma value_lift {A : Type} (o : outcome A) (w : world) :
  value (lift o w) = o.
Proof. reflexivity. Qed.

Lemma value_mret {A : Type} (a : A) (w : world) :
  value ((mret a : py A) w) = Returned a.
Proof. reflexivity. Qed.

Lemma bind_Returned {A B : Type} (a : A) (f : A -> outcome B) :
  (Returned a ≫= f) = f a.
Proof. reflexivity. Qed.

Ltac step_value :=
  rewrite value_bind;
  first [ rewrite value_emit | rewrite value_lift ];
  cbv beta iota.


Section PredictMore.

Context {F : Type} `{Float F}.
Variable model : Type.
Variable forward : model -> tensor F -> outcome (list (list F)).
Variable repr_float : F -> string.
Variable repr_tensor : list (list F) -> string.

Local Abbreviation predict :=
  (predict_fn (F := F) model forward repr_float repr_tensor).

(** What [predict_fn] returns, read off the network's output. *)
Lemma predict_fn_value (input_object : tensor F) (m : model) (w : world) :
  value (predict input_object m w)
  = (output ← forward m input_object;
     maxes ← torch_max_dim1 (F_softmax_dim1 output);
     conf ← item (fst maxes);
     i ← item (snd maxes);
     name ← getitem classes i;
     Returned [("class", PyStr name); ("confidence", PyFloat conf)]).
Proof.
  unfold predict_fn, print, logger_info.
  do 2 step_value.
  destruct (forward m input_object) as [output | e]; [| reflexivity].
  rewrite bind_Returned. do 6 step_value.
  destruct (torch_max_dim1 (F_softmax_dim1 output)) as [maxes | e];
    [| reflexivity].
  rewrite bind_Returned. step_value.
  destruct (item (fst maxes)) as [conf | e]; [| reflexivity].
  rewrite bind_Returned. step_value.
  destruct (item (snd maxes)) as [i | e]; [| reflexivity].
  rewrite bind_Returned. do 2 step_value.
  destruct (getitem classes i) as [name | e]; [| reflexivity].
  rewrite bind_Returned. step_value. reflexivity.
Qed.

Lemma rows_max_nonempty (t : list (list F)) :
  Forall (fun row => row <> []) t ->
  exists ms : list (F * Z),
    rows_max (map softmax_row t) = Returned ms /\ length ms = length t.
Proof.
  induction 1 as [| row t Hrow _ IH]; cbn.
  - exists []. auto.
  - destruct IH as (ms & -> & Hlen).
    destruct row as [| x row]; [congruence |]. cbn.
    eexists. split; [reflexivity |]. cbn. now rewrite Hlen.
Qed.


End PredictMore.

Section RealPredictMore.

Local Open Scope R_scope.

Variable model : Type.
Variable forward : model -> tensor R -> outcome (list (list R)).
Variable repr_float : R -> string.
Variable repr_tensor : list (list R) -> string.

Local Abbreviation predict :=
  (predict_fn (F := R) model forward repr_float repr_tensor).

Lemma fgtb_R (x y : R) : fgtb x y = true <-> y < x.
Proof.
  cbn [fgtb R_Float]. destruct (Rgt_dec x y) as [Hgt | Hle].
  - split; [intros _; exact Hgt | reflexivity].
  - split; [discriminate | intros Hlt; contradiction].
Qed.

Lemma exp_div_lt (a b t : R) : 0 < t -> a < b -> exp a / t < exp b / t.
Proof.
  intros Ht Hab. apply Rmult_lt_compat_r; [now apply Rinv_0_lt_compat |].
  now apply exp_increasing.
Qed.

Lemma softmax_two_closed_form (s0 s1 : R) :
  exp s1 / (exp s0 + exp s1) = 1 / (1 + exp (s0 - s1)).
Proof.
  unfold Rminus. rewrite exp_plus, exp_Ropp.
  pose proof (exp_pos s0). pose proof (exp_pos s1).
  field. split; lra.
Qed.



End RealPredictMore.

(** ** The values of the preprocessed tensor, and one serving cycle *)

Section RealServing.

Local Open Scope R_scope.

Variable IMG_SIZE : Z.
Variable bilinear : image -> Z -> Z -> (Z -> Z -> Z -> Z).
Variable pil_decode : list byte -> option image.
Variable model : Type.
Variable forward : model -> tensor R -> outcome (list (list R)).
Variable repr_float : R -> string.
Variable repr_tensor : list (list R) -> string.

Local Abbreviation decode_request :=
  (input_fn (F := R) IMG_SIZE bilinear pil_decode).
Local Abbreviation predict :=
  (predict_fn (F := R) model forward repr_float repr_tensor).

(** Resizing and cropping keep channel values within 0..255 when the
    decoder and the resampler do. *)
Lemma Resize_pixels (size : Z) (img resized : image) :
  (forall x y c : Z, (0 <= pixel img x y c <= 255)%Z) ->
  (forall (im : image) (ow oh : Z),
     (forall x y c : Z, (0 <= pixel im x y c <= 255)%Z) ->
     forall x y c : Z, (0 <= bilinear im ow oh x y c <= 255)%Z) ->
  Resize bilinear size img = Returned resized ->
  forall x y c : Z, (0 <= pixel resized x y c <= 255)%Z.
Proof.
  intros Himg Hbil. unfold Resize, int_div, image_resize.
  destruct (_ || _); [now intros [= <-] |].
  destruct (width img <? height img)%Z.
  - destruct (width img =? 0)%Z; [discriminate |].
    intros [= <-]. cbn. intros x y c. now apply Hbil.
  - destruct (height img =? 0)%Z; [discriminate |].
    intros [= <-]. cbn. intros x y c. now apply Hbil.
Qed.

Lemma CenterCrop_pixels (size : Z) (img cropped : image) :
  (forall x y c : Z, (0 <= pixel img x y c <= 255)%Z) ->
  CenterCrop size img = Returned cropped ->
  forall x y c : Z, (0 <= pixel cropped x y c <= 255)%Z.
Proof.
  intros Himg. unfold CenterCrop, image_crop.
  destruct (_ <? _)%Z; [discriminate |].
  destruct (_ <? _)%Z; [discriminate |].
  intros [= <-]. cbn. intros x y c.
  destruct (_ && _); [apply Himg | lia].
Qed.



End RealServing.

(** ** The split rules *)

(** X19. On a model of a body and a head the default split gives back the
    head alone, for any body; the resnet split gives the seventh layer of
    the body and the head, needs a body of at least seven layers
    ([IndexError] otherwise) and a body that is a sequence ([TypeError]
    otherwise). *)
Theorem split_rules_on_body_and_head (body head : nn_module) :
  _default_split (Sequential [body; head]) = Returned [head]
  /\ (forall layers : list nn_module,
        (7 <= length layers)%nat ->
        exists layer : nn_module,
          layers !! 6%nat = Some layer
          /\ _resnet_split (Sequential [Sequential layers; head])
             = Returned [layer; head])
  /\ (forall layers : list nn_module,
        (length layers < 7)%nat ->
        _resnet_split (Sequential [Sequential layers; head])
        = Raised IndexError)
  /\ (forall kind : string,
        exists msg : string,
          _resnet_split (Sequential [Layer kind; head])
          = Raised (TypeError msg)).
Proof.
  assert (Hsix : forall layers : list nn_module,
             subscript (Sequential layers) 6
             = match layers !! 6%nat with
               | Some layer => Returned layer
               | None => Raised IndexError
               end) by reflexivity.
  split; [reflexivity |]. split; [| split].
  - intros layers Hlen.
    destruct (lookup_lt_is_Some_2 layers 6 ltac:(lia)) as [layer Hl].
    exists layer. split; [exact Hl |].
    unfold _resnet_split.
    change (subscript (Sequential [Sequential layers; head]) 0)
      with (Returned (Sequential layers)).
    rewrite bind_Returned, Hsix, Hl. reflexivity.
  - intros layers Hlen.
    pose proof (lookup_ge_None_2 layers 6 ltac:(lia)) as Hl.
    unfold _resnet_split.
    change (subscript (Sequential [Sequential layers; head]) 0)
      with (Returned (Sequential layers)).
    rewrite bind_Returned, Hsix, Hl. reflexivity.
  - intros kind. eexists. reflexivity.
Qed.

(** ** The further properties on the concrete deployments *)

Lemma model_fn_reads_only_witness :
  listdir (after (Demo.load Demo.model_dir Demo.start)) = listdir Demo.start
  /\ cudnn_benchmark (after (Demo.load Demo.model_dir Demo.start)) = false.
Proof.
  destruct (model_fn_reads_only Demo.tvm Demo.arch_call Demo.create_body
              Demo.num_features Demo.create_head (list byte)
              Demo.torch_load Demo.fits Demo.model_dir Demo.start)
    as (Hls & _ & _ & Hcudnn & _).
  split; [exact Hls | apply Hcudnn; reflexivity].
Defined.

Lemma model_fn_returns_ready_witness :
  exists m : model (list byte),
    value (Demo.load Demo.model_dir Demo.start) = Returned m
    /\ training _ m = false /\ device _ m = "cpu".
Proof.
  assert (Hm : {m : model (list byte)
               | value (Demo.load Demo.model_dir Demo.start) = Returned m})
    by (eexists; vm_compute; reflexivity).
  destruct Hm as [m Hm]. exists m. split; [exact Hm |].
  destruct (model_fn_returns_ready Demo.tvm Demo.arch_call Demo.create_body
              Demo.num_features Demo.create_head (list byte)
              Demo.torch_load Demo.fits Demo.model_dir Demo.start m Hm)
    as (Htrain & Hdev & _).
  split; assumption.
Defined.

Lemma model_fn_unknown_architecture_witness :
  value (Demo.load Demo.model_dir Lab.stale_start)
  = Raised (AttributeError "resnet_v9").
Proof.
  apply (model_fn_unknown_architecture Demo.tvm Demo.arch_call
           Demo.create_body Demo.num_features Demo.create_head (list byte)
           Demo.torch_load Demo.fits Demo.model_dir Lab.stale_start
           "/opt/ml/model/resnet_v9.pth" []).
  - vm_compute. reflexivity.
  - intros Hin. vm_compute in Hin. discriminate.
Defined.

Lemma model_fn_weights_mismatch_witness :
  value (Lab.load_strict Demo.model_dir Demo.start)
  = Raised (RuntimeError "Error(s) in loading state_dict").
Proof.
  eapply (model_fn_weights_mismatch Demo.tvm Demo.arch_call Demo.create_body
            Demo.num_features Demo.create_head (list byte) Demo.torch_load
            (fun _ _ => false) Demo.model_dir Demo.start
            "/opt/ml/model/resnet34.pth" ["/opt/ml/model/resnet18.pth"]).
  - vm_compute. reflexivity.
  - vm_compute. reflexivity.
  - reflexivity.
  - vm_compute. reflexivity.
  - reflexivity.
  - reflexivity.
Defined.

Lemma arch_name_of_matching_entry_witness :
  exists stem : string,
    "resnet.v2.pth" = stem +:+ ".pth"
    /\ String.prefix "resnet" stem = true
    /\ fst (os_path_splitext
              (snd (os_path_split
                      (os_path_join "/opt/ml/model" "resnet.v2.pth"))))
       = stem.
Proof.
  apply (arch_name_of_matching_entry "/opt/ml/model" "resnet.v2.pth");
    reflexivity.
Defined.


Lemma save_other_name_cannot_load_witness :
  value (Demo.load Demo.model_dir
           (after (Lab.save "vgg16" 3 Demo.model_dir Demo.empty_start)))
  = Raised IndexError.
Proof.
  apply (save_other_name_cannot_load Demo.tvm nat (list byte)
           Lab.model_state_dict Lab.torch_save Demo.arch_call
           Demo.create_body Demo.num_features Demo.create_head
           Demo.torch_load Demo.fits "vgg16" 3%nat Demo.model_dir
           Demo.empty_start).
  - reflexivity.
  - reflexivity.
  - discriminate.
  - reflexivity.
  - reflexivity.
  - intros n Hn. cbn in Hn. now apply elem_of_nil in Hn.
  - vm_compute. reflexivity.
Defined.

Lemma train_unknown_architecture_witness :
  value (Lab.train (Lab.run_args "alexnet") Demo.empty_start)
  = Raised (AttributeError "alexnet")
  /\ listdir (after (Lab.train (Lab.run_args "alexnet") Demo.empty_start))
     = listdir Demo.empty_start.
Proof.
  destruct (train_unknown_architecture (F := R) Demo.tvm unit
              Lab.image_data_from_folder nat Lab.ConvLearner
              Lab.fit_one_cycle nat Lab.learn_model (list byte)
              Lab.model_state_dict Lab.torch_save string
              (Lab.run_args "alexnet") Demo.empty_start)
    as (_ & Hls & _ & Hattr).
  - intros Hin. vm_compute in Hin. discriminate.
  - split; [apply (Hattr tt); reflexivity | exact Hls].
Defined.



Lemma main_needs_environment_witness :
  Lab.main ∅ ["--model-dir"; "/tmp/model"]
  = Training.Aborted (Training.KeyError "SM_HOSTS").
Proof.
  apply (main_needs_environment (F := R) Demo.tvm unit
           Lab.image_data_from_folder nat Lab.ConvLearner Lab.fit_one_cycle
           nat Lab.learn_model (list byte) Lab.model_state_dict
           Lab.torch_save string Some Lab.parse_args ∅
           ["--model-dir"; "/tmp/model"]).
  reflexivity.
Defined.

Lemma input_fn_returns_batch_of_one_witness :
  exists t : tensor R,
    value (input_fn 224 Demo.nearest Demo.pil_decode Demo.jpeg_body
             JPEG_CONTENT_TYPE Demo.start) = Returned t
    /\ shape t = [1; 3; 224; 224]%Z
    /\ placed_on t = "cpu".
Proof.
  apply (input_fn_returns_batch_of_one (F := R) 224 Demo.nearest
           Demo.pil_decode Demo.jpeg_body Demo.start Demo.picture);
    reflexivity.
Defined.

Lemma input_fn_undecodable_witness :
  value (input_fn (F := R) 224 Demo.nearest Lab.no_decode Demo.jpeg_body
           JPEG_CONTENT_TYPE Demo.start)
  = Raised (OSError "cannot identify image file").
Proof.
  apply (input_fn_undecodable (F := R) 224 Demo.nearest Lab.no_decode
           Demo.jpeg_body Demo.start).
  reflexivity.
Defined.






Lemma split_rules_on_body_and_head_witness :
  exists layer : nn_module,
    _resnet_split
      (Sequential
         [Sequential (map (fun i : nat => Layer (pretty i)) (seq 0 8));
          Layer "head"])
    = Returned [layer; Layer "head"].
Proof.
  destruct (split_rules_on_body_and_head (Layer "body") (Layer "head"))
    as (_ & Hresnet & _).
  destruct (Hresnet (map (fun i : nat => Layer (pretty i)) (seq 0 8)))
    as (layer & _ & Hsplit).
  - vm_compute. lia.
  - exists layer. exact Hsplit.
Defined.
